(** * Document-Analyzer: a shallow embedding of [document_analyzer.py]

    The development follows the Python module function by function:
    - Python [str] values are sequences of Unicode code points;
    - the calls to the remote inference service, the clock and [print]
      are effects of a small state-and-exception monad whose state
      records the trace of everything the program did;
    - the [python-docx] document is a record of paragraphs and styles. *)

From Stdlib Require Import List NArith ZArith Bool String Ascii Lia.
From Stdlib Require DecimalString HexadecimalString.
Import ListNotations.

Set Implicit Arguments.

(** ** Python strings *)

Module Str.

Local Open Scope N_scope.

Definition codepoint := N.
Definition str := list codepoint.

(** ASCII literals of the source, as code point sequences. *)
Definition lit (x : string) : str := map N_of_ascii (list_ascii_of_string x).

Fixpoint eqb (a b : str) : bool :=
  match a, b with
  | [], [] => true
  | x :: a', y :: b' => N.eqb x y && eqb a' b'
  | _, _ => false
  end.

(** Truth value of a [str]: the empty string is falsy. *)
Definition truthy (a : str) : bool :=
  match a with [] => false | _ :: _ => true end.

(** Truth value of an optional [str] ([None] is falsy). *)
Definition truthy_opt (a : option str) : bool :=
  match a with None => false | Some x => truthy x end.

Definition in_range (lo hi c : codepoint) : bool := N.leb lo c && N.leb c hi.

(** [str.isspace] on one code point: the characters [str.strip()] removes. *)
Definition isspace (c : codepoint) : bool :=
  in_range 9 13 c || in_range 28 32 c || N.eqb c 133 || N.eqb c 160
  || N.eqb c 5760 || in_range 8192 8202 c || N.eqb c 8232 || N.eqb c 8233
  || N.eqb c 8239 || N.eqb c 8287 || N.eqb c 12288.

Fixpoint lstrip (a : str) : str :=
  match a with
  | [] => []
  | c :: a' => if isspace c then lstrip a' else a
  end.

Definition rstrip (a : str) : str := rev (lstrip (rev a)).

(** [a.strip()] *)
Definition strip (a : str) : str := rstrip (lstrip a).

(** [a.split(sep)] for a one-character separator: never the empty list. *)
Fixpoint split (sep : codepoint) (a : str) : list str :=
  match a with
  | [] => [[]]
  | c :: a' =>
      if N.eqb c sep then [] :: split sep a'
      else match split sep a' with
           | [] => [[c]]
           | chunk :: rest => (c :: chunk) :: rest
           end
  end.

Definition newline : codepoint := 10.

End Str.

Import Str.

(** ** The part of [re] that the parser uses *)

Module Re.

Local Open Scope N_scope.

Record flags := { IGNORECASE : bool; DOTALL : bool }.

Definition is_ascii_upper (c : codepoint) : bool := in_range 65 90 c.
Definition is_ascii_lower (c : codepoint) : bool := in_range 97 122 c.

Definition ascii_lower (c : codepoint) : codepoint :=
  if is_ascii_upper c then (c + 32) else c.

(** The non-ASCII characters an ASCII lower-case letter also matches under
    IGNORECASE: those whose simple lower-case mapping is the letter
    (U+0130 for i, U+212A for k) and the case-folding equivalents of
    [sre_compile] (U+0131 for i, U+017F for s). *)
Definition extra_equivalent (lo c : codepoint) : bool :=
  (N.eqb lo 105 && (N.eqb c 304 || N.eqb c 305))
  || (N.eqb lo 107 && N.eqb c 8490)
  || (N.eqb lo 115 && N.eqb c 383).

(** A literal pattern character [p] (ASCII) against a subject character. *)
Definition literal_matches (fl : flags) (p c : codepoint) : bool :=
  if IGNORECASE fl then
    let lo := ascii_lower p in
    if is_ascii_lower lo
    then N.eqb c lo || N.eqb c (lo - 32) || extra_equivalent lo c
    else N.eqb c p
  else N.eqb c p.

(** [re.escape(m)] matched at the head of [t]: the rest of [t] on success. *)
Fixpoint match_literal (fl : flags) (m t : str) : option str :=
  match m with
  | [] => Some t
  | p :: m' =>
      match t with
      | [] => None
      | c :: t' => if literal_matches fl p c then match_literal fl m' t' else None
      end
  end.

(** [.] matches every character but the newline, and that too under DOTALL. *)
Definition dot_matches (fl : flags) (c : codepoint) : bool :=
  DOTALL fl || negb (N.eqb c newline).

(** [(.*?)] followed by the literal [close], at the head of [t]: the group
    grows one character at a time until [close] matches. *)
Fixpoint lazy_group (fl : flags) (close t : str) : option str :=
  match match_literal fl close t with
  | Some _ => Some []
  | None =>
      match t with
      | [] => None
      | c :: t' =>
          if dot_matches fl c
          then option_map (cons c) (lazy_group fl close t')
          else None
      end
  end.

(** The pattern [escape(open) (.*?) escape(close)] anchored at the head of [t]. *)
Definition match_here (fl : flags) (open close t : str) : option str :=
  match match_literal fl open t with
  | Some rest => lazy_group fl close rest
  | None => None
  end.

(** [re.search(escape(open) + "(.*?)" + escape(close), t, flags)], giving
    [group(1)] of the match: start positions are tried from left to right. *)
Fixpoint search_group (fl : flags) (open close t : str) : option str :=
  match match_here fl open close t with
  | Some g => Some g
  | None =>
      match t with
      | [] => None
      | _ :: t' => search_group fl open close t'
      end
  end.

End Re.

Import Re.

(** ** Constants for parsing *)

Definition TEXT_START_MARKER : str := lit "--- START OF EXTRACTED TEXT ---".
Definition TEXT_END_MARKER : str := lit "--- END OF EXTRACTED TEXT ---".
Definition SUMMARY_START_MARKER : str := lit "--- START OF SUMMARY ---".
Definition SUMMARY_END_MARKER : str := lit "--- END OF SUMMARY ---".

(** [re.DOTALL | re.IGNORECASE] *)
Definition parse_flags : flags := {| IGNORECASE := true; DOTALL := true |}.

(** ** The remote service, the clock and the console *)

(** An exception of class [Exception], which is what the client library,
    the file system and a property of the response raise and what every
    [except Exception] of the module catches. *)
Inductive exn := Exception (message : str).

Inductive result (A : Type) :=
| Ok (a : A)
| Err (e : exn).
Arguments Ok {A} a.
Arguments Err {A} e.

(** The file object of the client library: the attributes the program reads.
    [state_name] is [uploaded_file.state.name]. *)
Record File := {
  name : str;
  display_name : str;
  state_name : str
}.

(** The response object: [text] is missing ([None]), or a property whose
    access raises, or a string. *)
Record Response := {
  text : option (result str);
  prompt_feedback : option str
}.

(** One constructor per [print] of the module. *)
Inductive msg :=
| MsgUploading (file_path : str)
| MsgFileNotFound (file_path : str)
| MsgUploaded (file_name : str)
| MsgWaiting
| MsgTimedOut
| MsgCleanedTimedOut (file_name : str)
| MsgWarnDeleteTimedOut (file_name : str) (e : exn)
| MsgCurrentState (state : str)
| MsgActive
| MsgBadState (state : str)
| MsgCleanedState (state file_name : str)
| MsgWarnDeleteState (file_name state : str) (e : exn)
| MsgUploadError (attempt retries : nat) (e : exn)
| MsgRetrying (delay : Z)
| MsgUploadFailed
| MsgAnalyzing (language extract_mode : str)
| MsgSending
| MsgParsing
| MsgNoText
| MsgPromptFeedback (feedback : str)
| MsgTextExtracted
| MsgTextNotFound
| MsgSummaryExtracted
| MsgSummaryNotFound
| MsgParseFailed
| MsgUsingFullResponse
| MsgAnalysisError (e : exn)
| MsgDeleting (file_name : str)
| MsgDeleted
| MsgWarnDelete (e : exn)
| MsgSavingText (output_path : str)
| MsgNoTextContent
| MsgTextSaved
| MsgTextSaveError (output_path : str) (e : exn)
| MsgSavingWord (output_path : str)
| MsgNoWordContent
| MsgWordSaved
| MsgWordSaveError (output_path : str) (e : exn)
| MsgSavedTo (output_path : str)
| MsgSaveFailed
| MsgNoContent
| MsgProcessFailed
| MsgFinished.

(** ** The document of [python-docx] *)

Inductive alignment := LEFT | CENTER | RIGHT | JUSTIFY.

(** What a run holds: text, tabs and line breaks, in order. *)
Inductive run_item :=
| RunText (t : str)
| RunTab
| RunBreak.

Record run := {
  run_content : list run_item;
  bold : option bool;
  font_size_pt : option Z
}.

(** [p_alignment = None]: the paragraph inherits the alignment of its style. *)
Record paragraph := {
  p_alignment : option alignment;
  runs : list run
}.

Record document := {
  normal_alignment : option alignment;
  paragraphs : list paragraph
}.

(** Everything the program does to the outside world, in order. *)
Inductive event :=
| EvUpload (file_path : str)
| EvGetFile (file_name : str)
| EvDeleteFile (file_name : str)
| EvGenerate (prompt file_name : str) (timeout : Z)
| EvSleep (secs : Z)
| EvPrint (m : msg)
| EvMakeDirs (directory : str)
| EvWriteText (output_path content : str)
| EvSaveDocx (output_path : str) (doc : document).

(** What the outside world answers: the outcome of the k-th call of each
    kind, and the time ([lag], in milliseconds) that passes during the
    k-th effect beyond what the program asked for. *)
Record world := {
  path_exists : str -> bool;
  upload_file : nat -> result File;
  get_file : nat -> result File;
  delete_file : nat -> result unit;
  generate_content : nat -> result Response;
  makedirs : nat -> result unit;
  write_file : nat -> result unit;
  lag : nat -> N
}.

(** The clock counts milliseconds; [trace] has the latest event first. *)
Record state := {
  now : Z;
  trace : list event
}.

Definition initial_state : state := {| now := 0; trace := [] |}.

Definition is_upload (e : event) : bool :=
  match e with EvUpload _ => true | _ => false end.
Definition is_get_file (e : event) : bool :=
  match e with EvGetFile _ => true | _ => false end.
Definition is_delete (e : event) : bool :=
  match e with EvDeleteFile _ => true | _ => false end.
Definition is_generate (e : event) : bool :=
  match e with EvGenerate _ _ _ => true | _ => false end.
Definition is_makedirs (e : event) : bool :=
  match e with EvMakeDirs _ => true | _ => false end.
Definition is_write (e : event) : bool :=
  match e with EvWriteText _ _ | EvSaveDocx _ _ => true | _ => false end.

Definition count (p : event -> bool) (tr : list event) : nat :=
  List.length (filter p tr).

(** The events of a run in the order they happened. *)
Definition history (st : state) : list event := rev (trace st).

(** ** The monad: state, exceptions and exhausted fuel *)

Inductive outcome (A : Type) :=
| Val (a : A)
| Raise (e : exn)
| Diverge.
Arguments Val {A} a.
Arguments Raise {A} e.
Arguments Diverge {A}.

Definition M (A : Type) : Type := world -> state -> outcome A * state.

Definition ret {A} (a : A) : M A := fun _ st => (Val a, st).

Definition bind {A B} (m : M A) (k : A -> M B) : M B :=
  fun w st =>
    match m w st with
    | (Val a, st') => k a w st'
    | (Raise e, st') => (Raise e, st')
    | (Diverge, st') => (Diverge, st')
    end.

Definition diverge {A} : M A := fun _ st => (Diverge, st).

Declare Scope monad_scope.
Delimit Scope monad_scope with monad.
Notation "x <- m ;; k" := (bind m (fun x => k))
  (at level 61, m at next level, right associativity) : monad_scope.
Notation "m ;; k" := (bind m (fun _ => k))
  (at level 61, right associativity) : monad_scope.
Local Open Scope monad_scope.

(** [try: body except Exception as e: handler e] *)
Definition try_except {A} (body : M A) (handler : exn -> M A) : M A :=
  fun w st =>
    match body w st with
    | (Raise e, st') => handler e w st'
    | r => r
    end.

(** [try: body finally: cleanup]: the cleanup runs on every exit of the
    body; an exception of the cleanup replaces the outcome of the body. *)
Definition try_finally {A} (body : M A) (cleanup : M unit) : M A :=
  fun w st =>
    match body w st with
    | (Diverge, st') => (Diverge, st')
    | (r, st') =>
        match cleanup w st' with
        | (Val _, st'') => (r, st'')
        | (Raise e, st'') => (Raise e, st'')
        | (Diverge, st'') => (Diverge, st'')
        end
    end.

Definition seconds (n : Z) : Z := (1000 * n)%Z.

(** One effect: the event is recorded, the clock moves by [duration] plus
    the lag of the world, and [answer] is what the world gives back. *)
Definition effect {A} (ev : event) (duration : Z)
    (answer : world -> list event -> result A) : M A :=
  fun w st =>
    let st' := {| now := (now st + duration + Z.of_N (lag w (List.length (trace st))))%Z;
                  trace := ev :: trace st |} in
    match answer w (trace st) with
    | Ok a => (Val a, st')
    | Err e => (Raise e, st')
    end.

Definition print (m : msg) : M unit :=
  fun _ st => (Val tt, {| now := now st; trace := EvPrint m :: trace st |}).

(** [time.time()] *)
Definition time_time : M Z := fun _ st => (Val (now st), st).

(** [time.sleep(secs)] *)
Definition time_sleep (secs : Z) : M unit :=
  effect (EvSleep secs) (seconds secs) (fun _ _ => Ok tt).

(** [os.path.exists(file_path)] *)
Definition os_path_exists (file_path : str) : M bool :=
  fun w st => (Val (path_exists w file_path), st).

(** [genai.upload_file(path=file_path)] *)
Definition genai_upload_file (file_path : str) : M File :=
  effect (EvUpload file_path) 0 (fun w tr => upload_file w (count is_upload tr)).

(** [genai.get_file(file_name)] *)
Definition genai_get_file (file_name : str) : M File :=
  effect (EvGetFile file_name) 0 (fun w tr => get_file w (count is_get_file tr)).

(** [genai.delete_file(file_name)] *)
Definition genai_delete_file (file_name : str) : M unit :=
  effect (EvDeleteFile file_name) 0 (fun w tr => delete_file w (count is_delete tr)).

(** [model.generate_content([prompt, uploaded_file], request_options)] *)
Definition model_generate_content (prompt : str) (uploaded_file : File)
    (timeout : Z) : M Response :=
  effect (EvGenerate prompt (name uploaded_file) timeout) 0
         (fun w tr => generate_content w (count is_generate tr)).

(** [os.makedirs(directory, exist_ok=True)] *)
Definition os_makedirs (directory : str) : M unit :=
  effect (EvMakeDirs directory) 0 (fun w tr => makedirs w (count is_makedirs tr)).

(** [hasattr(response, 'text')]: an exception of the property other than
    a missing attribute comes out of [hasattr]. *)
Definition hasattr_text (response : Response) : M bool :=
  match text response with
  | None => ret false
  | Some (Ok _) => ret true
  | Some (Err e) => fun _ st => (Raise e, st)
  end.

(** [response.text] *)
Definition response_text (response : Response) : M str :=
  match text response with
  | Some (Ok t) => ret t
  | Some (Err e) => fun _ st => (Raise e, st)
  | None => fun _ st => (Raise (Exception (lit "AttributeError: text")), st)
  end.

Definition run_M {A} (m : M A) (w : world) : outcome A * state := m w initial_state.

(** ** [upload_file_to_gemini] *)

(** How the polling loop is left: by the [return None] of the time-out
    branch, or by its condition with the last file object read. *)
Inductive loop_exit :=
| Returned (v : option File)
| Fell_through (uploaded_file : File).

(** [while uploaded_file.state.name == "PROCESSING": ...]; one unit of
    [fuel] per iteration. *)
Fixpoint wait_for_processing (fuel : nat) (processing_timeout start_time : Z)
    (uploaded_file : File) : M loop_exit :=
  if Str.eqb (state_name uploaded_file) (lit "PROCESSING") then
    match fuel with
    | O => diverge
    | S fuel' =>
        t <- time_time ;;
        if (t - start_time >? seconds processing_timeout)%Z then
          print MsgTimedOut ;;
          try_except
            (genai_delete_file (name uploaded_file) ;;
             print (MsgCleanedTimedOut (name uploaded_file)))
            (fun delete_e =>
               print (MsgWarnDeleteTimedOut (name uploaded_file) delete_e)) ;;
          ret (Returned None)
        else
          time_sleep 15 ;;
          uploaded_file <- genai_get_file (name uploaded_file) ;;
          print (MsgCurrentState (state_name uploaded_file)) ;;
          wait_for_processing fuel' processing_timeout start_time uploaded_file
    end
  else ret (Fell_through uploaded_file).

(** The body of the [try] of one attempt: it ends in a [return] of the
    function, or in an exception. *)
Definition upload_attempt (fuel : nat) (file_path : str) : M (option File) :=
  uploaded_file <- genai_upload_file file_path ;;
  print (MsgUploaded (name uploaded_file)) ;;
  print MsgWaiting ;;
  let processing_timeout := 300%Z in
  start_time <- time_time ;;
  exit <- wait_for_processing fuel processing_timeout start_time uploaded_file ;;
  match exit with
  | Returned v => ret v
  | Fell_through uploaded_file =>
      if Str.eqb (state_name uploaded_file) (lit "ACTIVE") then
        print MsgActive ;;
        ret (Some uploaded_file)
      else
        print (MsgBadState (state_name uploaded_file)) ;;
        try_except
          (if negb (Str.eqb (state_name uploaded_file) (lit "DELETED")) then
             genai_delete_file (name uploaded_file) ;;
             print (MsgCleanedState (state_name uploaded_file) (name uploaded_file))
           else ret tt)
          (fun delete_e =>
             print (MsgWarnDeleteState (name uploaded_file)
                                       (state_name uploaded_file) delete_e)) ;;
        ret None
  end.

(** [while attempt < retries: try: ... except Exception as e: ...]; one
    unit of [fuel] per iteration. *)
Fixpoint upload_loop (fuel poll_fuel : nat) (file_path : str) (retries : nat)
    (delay : Z) (attempt : nat) : M (option File) :=
  if (attempt <? retries)%nat then
    match fuel with
    | O => diverge
    | S fuel' =>
        try_except
          (upload_attempt poll_fuel file_path)
          (fun e =>
             let attempt := (attempt + 1)%nat in
             print (MsgUploadError attempt retries e) ;;
             if (attempt <? retries)%nat then
               print (MsgRetrying delay) ;;
               time_sleep delay ;;
               upload_loop fuel' poll_fuel file_path retries delay attempt
             else
               print MsgUploadFailed ;;
               ret None)
    end
  else ret None.

Definition upload_file_to_gemini_with (fuel : nat) (file_path : str)
    (retries : nat) (delay : Z) : M (option File) :=
  print (MsgUploading file_path) ;;
  found <- os_path_exists file_path ;;
  if negb found then
    print (MsgFileNotFound file_path) ;;
    ret None
  else
    let attempt := 0%nat in
    upload_loop fuel fuel file_path retries delay attempt.

(** [upload_file_to_gemini(file_path)] with [retries=3, delay=5]. *)
Definition upload_file_to_gemini (fuel : nat) (file_path : str) : M (option File) :=
  upload_file_to_gemini_with fuel file_path 3 5.

(** ** [analyze_document] *)

Definition text_direction (language : str) : str :=
  if Str.eqb language (lit "arabic") then lit "right-to-left" else lit "left-to-right".

Definition summary_prompt (uploaded_file : File) (language text_dir : str) : str :=
  lit "
Please analyze the attached document ("
  ++ display_name uploaded_file
  ++ lit ") and provide the following in "
  ++ language
  ++ lit ":

**Task 1: Extract and Summarize Content**
1. Extract all visible text from the document (including text in images if possible).
2. Create a comprehensive summary of the document's content.
3. Include key points, main ideas, and important details.
4. Format the summary in clear, well-structured paragraphs.
5. The summary should be approximately 20-30% of the original text length.
6. Ensure the text follows "
  ++ text_dir
  ++ lit " direction appropriate for "
  ++ language
  ++ lit ".

**Task 2: Full Text Extraction**
1. Extract ALL textual content from the document, including any text visible in images.
2. Present the extracted text in a clean, readable format.
3. Preserve paragraph breaks and important formatting where possible.
4. Ensure the text follows "
  ++ text_dir
  ++ lit " direction appropriate for "
  ++ language
  ++ lit ".

**Output Format:**
Please structure your response exactly as follows:

"
  ++ SUMMARY_START_MARKER
  ++ lit "
[Your detailed summary here]
"
  ++ SUMMARY_END_MARKER
  ++ lit "

"
  ++ TEXT_START_MARKER
  ++ lit "
[Full extracted text here]
"
  ++ TEXT_END_MARKER
  ++ lit "
".

Definition full_prompt (uploaded_file : File) (language text_dir : str) : str :=
  lit "
Please analyze the attached document ("
  ++ display_name uploaded_file
  ++ lit ") and provide the following in "
  ++ language
  ++ lit ":

**Task: Full Text Extraction**
1. Extract ALL textual content from the document, including any text visible in images.
2. Present the extracted text in a clean, readable format.
3. Preserve paragraph breaks and important formatting where possible.
4. Ensure the text follows "
  ++ text_dir
  ++ lit " direction appropriate for "
  ++ language
  ++ lit ".
5. DO NOT summarize or alter the content - provide the complete extracted text only.

**Output Format:**
Please structure your response exactly as follows:

"
  ++ TEXT_START_MARKER
  ++ lit "
[Full extracted text here]
"
  ++ TEXT_END_MARKER
  ++ lit "
".

(** The prompt of [analyze_document]. *)
Definition build_prompt (uploaded_file : File) (extract_mode language : str) : str :=
  let text_dir := text_direction language in
  if Str.eqb extract_mode (lit "summary")
  then summary_prompt uploaded_file language text_dir
  else full_prompt uploaded_file language text_dir.

(** The statements between [full_response_text = response.text] and the
    [return] of the [try] body. *)
Definition parse_sections (full_response_text extract_mode : str)
    : M (option str * option str) :=
  let text_match :=
    search_group parse_flags TEXT_START_MARKER TEXT_END_MARKER full_response_text in
  extracted_text <-
    match text_match with
    | Some group1 => print MsgTextExtracted ;; ret (Some (strip group1))
    | None => print MsgTextNotFound ;; ret None
    end ;;
  summary_text <-
    (if Str.eqb extract_mode (lit "summary") then
       let summary_match :=
         search_group parse_flags SUMMARY_START_MARKER SUMMARY_END_MARKER
                      full_response_text in
       match summary_match with
       | Some group1 => print MsgSummaryExtracted ;; ret (Some (strip group1))
       | None => print MsgSummaryNotFound ;; ret None
       end
     else ret None) ;;
  extracted_text <-
    match extracted_text, summary_text with
    | None, None =>
        print MsgParseFailed ;;
        if truthy (strip full_response_text) then
          print MsgUsingFullResponse ;;
          ret (Some (strip full_response_text))
        else ret extracted_text
    | _, _ => ret extracted_text
    end ;;
  ret (extracted_text, summary_text).

Definition analyze_document (uploaded_file : File) (extract_mode language : str)
    : M (option str * option str) :=
  print (MsgAnalyzing language extract_mode) ;;
  let prompt := build_prompt uploaded_file extract_mode language in
  try_finally
    (try_except
       (print MsgSending ;;
        let timeout := 600%Z in
        response <- model_generate_content prompt uploaded_file timeout ;;
        print MsgParsing ;;
        has_text <- hasattr_text response ;;
        if negb has_text then
          print MsgNoText ;;
          match prompt_feedback response with
          | Some feedback => print (MsgPromptFeedback feedback)
          | None => ret tt
          end ;;
          ret (None, None)
        else
          full_response_text <- response_text response ;;
          parse_sections full_response_text extract_mode)
       (fun e =>
          print (MsgAnalysisError e) ;;
          ret (None, None)))
    (try_except
       (if truthy (name uploaded_file) then
          print (MsgDeleting (name uploaded_file)) ;;
          genai_delete_file (name uploaded_file) ;;
          print MsgDeleted
        else ret tt)
       (fun delete_e => print (MsgWarnDelete delete_e))).

(** ** The output writers *)

Definition slash : codepoint := 47%N.

Fixpoint drop_while (p : codepoint -> bool) (a : str) : str :=
  match a with
  | [] => []
  | c :: a' => if p c then drop_while p a' else a
  end.

(** [os.path.dirname] of [posixpath]: the path up to its last slash,
    without trailing slashes unless it consists of slashes only. *)
Definition dirname (p : str) : str :=
  let head := rev (drop_while (fun c => negb (N.eqb c slash)) (rev p)) in
  if truthy head && negb (forallb (N.eqb slash) head)
  then rev (drop_while (N.eqb slash) (rev head))
  else head.

(** [with open(output_path, 'w', encoding='utf-8') as f: f.write(content)] *)
Definition write_text (output_path content : str) : M unit :=
  effect (EvWriteText output_path content) 0
         (fun w tr => write_file w (count is_write tr)).

(** [doc.save(output_path)] *)
Definition doc_save (doc : document) (output_path : str) : M unit :=
  effect (EvSaveDocx output_path doc) 0
         (fun w tr => write_file w (count is_write tr)).

Definition save_to_text_file (content : option str) (output_path : str) : M bool :=
  print (MsgSavingText output_path) ;;
  match content with
  | None => print MsgNoTextContent ;; ret false
  | Some content =>
      try_except
        (let directory := dirname output_path in
         (if truthy directory then os_makedirs directory else ret tt) ;;
         write_text output_path content ;;
         print MsgTextSaved ;;
         ret true)
        (fun e => print (MsgTextSaveError output_path e) ;; ret false)
  end.

(** [Document()]: the default template, where no alignment is set. *)
Definition new_document : document :=
  {| normal_alignment := None; paragraphs := [] |}.

(** [doc.add_paragraph()] together with what the program then sets on the
    paragraph it got back, which is the last one of the document. *)
Definition add_paragraph (doc : document) (p : paragraph) : document :=
  {| normal_alignment := normal_alignment doc;
     paragraphs := paragraphs doc ++ [p] |}.

(** A character that XML text may hold; the XML library refuses every
    other one, among them the control characters other than tab, line feed
    and carriage return. *)
Definition xml_char (c : codepoint) : bool :=
  (N.eqb c 9 || N.eqb c 10 || N.eqb c 13 || in_range 32 55295 c
   || in_range 57344 65533 c || N.leb 65536 c)%N.

(** A surrogate code point: a Python string may hold one on its own, and
    UTF-8 does not encode it. *)
Definition surrogate (c : codepoint) : bool := in_range 55296%N 57343%N c.

Definition decimal (n : nat) : str :=
  lit (DecimalString.NilZero.string_of_uint (Nat.to_uint n)).

Definition hexadecimal (c : codepoint) : str :=
  lit (HexadecimalString.NilZero.string_of_uint (N.to_hex_uint c)).

(** How many surrogates a text starts with. *)
Fixpoint surrogates_at_head (text : str) : nat :=
  match text with
  | [] => O
  | c :: text' => if surrogate c then S (surrogates_at_head text') else O
  end.

(** The [UnicodeEncodeError] of [text.encode('utf8')] for the surrogates at
    the positions [start] to [last] of the text, the first of them [c]. *)
Definition unicode_encode_error (c : codepoint) (start last : nat) : exn :=
  Exception
    (if Nat.eqb start last
     then lit "'utf-8' codec can't encode character '\u" ++ hexadecimal c
          ++ lit "' in position " ++ decimal start
          ++ lit ": surrogates not allowed"
     else lit "'utf-8' codec can't encode characters in position "
          ++ decimal start ++ lit "-" ++ decimal last
          ++ lit ": surrogates not allowed").

(** [text.encode('utf8')] stops at the first surrogates of the text; [i] is
    the position of the head of [text]. *)
Fixpoint encode_error (i : nat) (text : str) : option exn :=
  match text with
  | [] => None
  | c :: text' =>
      if surrogate c
      then Some (unicode_encode_error c i (i + surrogates_at_head text'))
      else encode_error (S i) text'
  end.

Definition xml_value_error : exn :=
  Exception (lit "All strings must be XML compatible: Unicode or ASCII, no NULL bytes or control characters").

(** A text element of a run with the text [text]: the XML library encodes
    the text and then checks its characters. *)
Definition add_t (text : str) : result run_item :=
  match encode_error 0 text with
  | Some e => Err e
  | None => if forallb xml_char text then Ok (RunText text) else Err xml_value_error
  end.

(** What is flushed from the buffer of the run content appender: a text
    element, unless the buffer is empty. The buffer holds the latest
    character first. *)
Definition flush (bfr : str) : result (list run_item) :=
  match bfr with
  | [] => Ok []
  | _ :: _ =>
      match add_t (rev bfr) with
      | Ok t => Ok [t]
      | Err e => Err e
      end
  end.

(** The content of a run whose text is set to [text]: a tab character
    becomes a tab, a line feed or a carriage return becomes a line break,
    and the characters between them are kept as text elements. The first
    text element that the XML library refuses ends it. *)
Fixpoint run_items_from (bfr text : str) : result (list run_item) :=
  match text with
  | [] => flush bfr
  | c :: text' =>
      if N.eqb c 9%N then
        match flush bfr with
        | Err e => Err e
        | Ok flushed =>
            match run_items_from [] text' with
            | Err e => Err e
            | Ok items => Ok (flushed ++ RunTab :: items)
            end
        end
      else if N.eqb c 13%N || N.eqb c 10%N then
        match flush bfr with
        | Err e => Err e
        | Ok flushed =>
            match run_items_from [] text' with
            | Err e => Err e
            | Ok items => Ok (flushed ++ RunBreak :: items)
            end
        end
      else run_items_from (c :: bfr) text'
  end.

Definition run_items (text : str) : result (list run_item) :=
  run_items_from [] text.

(** [paragraph.add_run(text)]: the new run, which gets content only when
    the text is not empty, or the exception of setting its text. *)
Definition add_run (text : str) : result run :=
  if truthy text then
    match run_items text with
    | Ok items => Ok {| run_content := items; bold := None; font_size_pt := None |}
    | Err e => Err e
    end
  else Ok {| run_content := []; bold := None; font_size_pt := None |}.

(** [run.text], the text read back from a run: a tab for a tab and a line
    feed for a line break. *)
Definition item_text (i : run_item) : str :=
  match i with
  | RunText t => t
  | RunTab => [9%N]
  | RunBreak => [10%N]
  end.

Definition run_text (r : run) : str := List.concat (map item_text (run_content r)).

Definition cr_to_lf (c : codepoint) : codepoint :=
  if N.eqb c 13%N then 10%N else c.

(** The document [save_to_word_file] builds before it saves it, or the
    exception that building it raises. *)
Definition word_document (content title language : str) : result document :=
  let doc := new_document in
  let '(doc, rtl) :=
    if Str.eqb language (lit "arabic")
    then ({| normal_alignment := Some RIGHT; paragraphs := paragraphs doc |}, true)
    else (doc, false) in
  match add_run title with
  | Err e => Err e
  | Ok title_run =>
      let title_run := {| run_content := run_content title_run;
                          bold := Some true; font_size_pt := Some 16%Z |} in
      let title_paragraph := {| p_alignment := Some CENTER; runs := [title_run] |} in
      let doc := add_paragraph doc title_paragraph in
      let doc := add_paragraph doc {| p_alignment := None; runs := [] |} in
      let paragraphs := split newline content in
      fold_left
        (fun built para =>
           match built with
           | Err e => Err e
           | Ok doc =>
               if truthy (strip para) then
                 match add_run para with
                 | Err e => Err e
                 | Ok r =>
                     Ok (add_paragraph doc
                           {| p_alignment := if rtl : bool then Some RIGHT else None;
                              runs := [r] |})
                 end
               else Ok doc
           end)
        paragraphs (Ok doc)
  end.

(** A computation that went well or raised, inside the monad. *)
Definition of_result {A} (r : result A) : M A :=
  fun _ st =>
    match r with
    | Ok a => (Val a, st)
    | Err e => (Raise e, st)
    end.

Definition save_to_word_file (content : option str) (output_path title language : str)
    : M bool :=
  print (MsgSavingWord output_path) ;;
  match content with
  | None => print MsgNoWordContent ;; ret false
  | Some content =>
      try_except
        (let directory := dirname output_path in
         (if truthy directory then os_makedirs directory else ret tt) ;;
         doc <- of_result (word_document content title language) ;;
         doc_save doc output_path ;;
         print MsgWordSaved ;;
         ret true)
        (fun e => print (MsgWordSaveError output_path e) ;; ret false)
  end.

(** The alignment a paragraph is rendered with: its own, else that of the
    Normal style, else the default of the format, which is left. *)
Definition effective_alignment (doc : document) (p : paragraph) : alignment :=
  match p_alignment p with
  | Some a => a
  | None => match normal_alignment doc with Some a => a | None => LEFT end
  end.

(** ** The callers: the script and the window *)

(** [summary_text if mode == "summary" and summary_text else extracted_text],
    the same expression in the script and in the window. *)
Definition content_to_save (mode : str) (extracted_text summary_text : option str)
    : option str :=
  if Str.eqb mode (lit "summary") && truthy_opt summary_text
  then summary_text
  else extracted_text.

Definition document_title (mode base_filename : str) : str :=
  (if Str.eqb mode (lit "summary") then lit "Summary" else lit "Extracted Text")
  ++ lit " - " ++ base_filename.

(** Steps 1 to 3 of the script, after the arguments were read. *)
Definition main (fuel : nat) (input_file output_path base_filename format mode language : str)
    : M unit :=
  uploaded_file <- upload_file_to_gemini fuel input_file ;;
  match uploaded_file with
  | Some uploaded_file =>
      r <- analyze_document uploaded_file mode language ;;
      let '(extracted_text, summary_text) := r in
      let content := content_to_save mode extracted_text summary_text in
      if truthy_opt content then
        success <-
          (if Str.eqb format (lit "docx") then
             let title := document_title mode base_filename in
             save_to_word_file content output_path title language
           else save_to_text_file content output_path) ;;
        if success : bool then print (MsgSavedTo output_path) else print MsgSaveFailed
      else print MsgNoContent
  | None => print MsgProcessFailed
  end ;;
  print MsgFinished.

(** ** Observations on a run *)

(** The value a computation returned, when it returned one. *)
Definition returned {A} (r : outcome A * state) : option A :=
  match fst r with
  | Val a => Some a
  | _ => None
  end.

Definition final_trace {A} (r : outcome A * state) : list event := trace (snd r).

Definition is_delete_of (file_name : str) (e : event) : bool :=
  match e with
  | EvDeleteFile n => Str.eqb n file_name
  | _ => false
  end.

Definition is_sleep_of (secs : Z) (e : event) : bool :=
  match e with
  | EvSleep s => Z.eqb s secs
  | _ => false
  end.

Definition is_print_of (p : msg -> bool) (e : event) : bool :=
  match e with
  | EvPrint m => p m
  | _ => false
  end.

Definition is_upload_failed (m : msg) : bool :=
  match m with MsgUploadFailed => true | _ => false end.
Definition is_upload_error (m : msg) : bool :=
  match m with MsgUploadError _ _ _ => true | _ => false end.

(** The names of the file objects the upload calls of a run gave back. *)
Fixpoint uploaded_names (hist : list event) : list str :=
  match hist with
  | [] => []
  | EvUpload _ :: EvPrint (MsgUploaded n) :: rest => n :: uploaded_names rest
  | _ :: rest => uploaded_names rest
  end.

(** ** The parser and the caller as the specification words them *)

Module Spec.

(** The marker [m] stands at the head of [t], letter case ignored. *)
Definition marker_at (m t : str) : bool :=
  match match_literal parse_flags m t with
  | Some _ => true
  | None => false
  end.

(** The first position of [t] where the marker [m] stands. *)
Fixpoint find_marker (m t : str) : option nat :=
  if marker_at m t then Some O
  else match t with
       | [] => None
       | _ :: t' => option_map S (find_marker m t')
       end.

(** The first substring strictly between [open] and [close]: what follows
    the first [open] up to the first [close] after it. *)
Definition first_between (open close raw : str) : option str :=
  match find_marker open raw with
  | None => None
  | Some i =>
      let body := skipn (i + List.length open) raw in
      match find_marker close body with
      | None => None
      | Some j => Some (firstn j body)
      end
  end.

Definition has_non_whitespace (raw : str) : bool :=
  existsb (fun c => negb (isspace c)) raw.

(** The section the summary search finds; the search is only attempted
    in summary mode. *)
Definition summary_section (rawText mode : str) : option str :=
  if Str.eqb mode (lit "summary")
  then first_between SUMMARY_START_MARKER SUMMARY_END_MARKER rawText
  else None.

(** [parse(rawText, mode) -> (fullText?, summaryText?)] *)
Definition parse (rawText mode : str) : option str * option str :=
  let fullText :=
    option_map strip (first_between TEXT_START_MARKER TEXT_END_MARKER rawText) in
  let summaryText := option_map strip (summary_section rawText mode) in
  match fullText, summaryText with
  | None, None =>
      if has_non_whitespace rawText then (Some (strip rawText), None) else (None, None)
  | _, _ => (fullText, summaryText)
  end.

(** The content to persist: the summary when the mode is SUMMARY and the
    summary is present, otherwise the full text. *)
Definition content_to_persist (mode : str) (fullText summaryText : option str)
    : option str :=
  match summaryText with
  | Some _ => if Str.eqb mode (lit "summary") then summaryText else fullText
  | None => fullText
  end.

(** The positions at which [m] occurs in [t], letter for letter. *)
Fixpoint starts_with (m t : str) : bool :=
  match m, t with
  | [], _ => true
  | _ :: _, [] => false
  | p :: m', c :: t' => N.eqb p c && starts_with m' t'
  end.

Fixpoint occurrences_from (i : nat) (m t : str) : list nat :=
  (if starts_with m t then [i] else [])
  ++ match t with
     | [] => []
     | _ :: t' => occurrences_from (S i) m t'
     end.

Definition occurrences (m t : str) : list nat := occurrences_from 0 m t.

End Spec.

(** A (mode, language) pair the script and the window can pass. *)
Definition valid_mode (mode : str) : Prop := mode = lit "full" \/ mode = lit "summary".
Definition valid_language (language : str) : Prop :=
  language = lit "arabic" \/ language = lit "english".

(** The prompt around the display name. *)
Definition prompt_head : str := lit "
Please analyze the attached document (".

Definition prompt_tail (extract_mode language : str) : str :=
  skipn (List.length prompt_head)
        (build_prompt {| name := []; display_name := []; state_name := [] |}
                      extract_mode language).

(** The trace without the console output. *)
Definition is_action (e : event) : bool :=
  match e with
  | EvPrint _ => false
  | _ => true
  end.

Definition actions (tr : list event) : list event := filter is_action tr.

(** The string neither begins nor ends with a whitespace character. *)
Definition clean_ends (a : str) : bool :=
  match a with
  | [] => true
  | c :: _ => negb (isspace c) && negb (isspace (last a c))
  end.

(** An optional string that, when present, has no whitespace at its ends
    and so is its own trimmed form. *)
Definition trimmed (x : option str) : Prop :=
  match x with
  | Some a => clean_ends a = true /\ strip a = a
  | None => True
  end.

(** A response without markers, with whitespace around its text. *)
Definition padded_response : str :=
  [32; 9; 10]%N ++ lit "just some text" ++ [13; 10; 32]%N.

(** A response whose sections have whitespace inside the markers. *)
Definition padded_sections_response : str :=
  SUMMARY_START_MARKER ++ [10; 32]%N ++ lit "short" ++ [9; 10]%N
  ++ SUMMARY_END_MARKER ++ [10]%N
  ++ TEXT_START_MARKER ++ [13; 10; 160]%N ++ lit "long text" ++ [32; 32; 10]%N
  ++ TEXT_END_MARKER.

(** Contents for the document writer: one with a carriage return, a blank
    chunk and a tab, and one with a form feed. *)
Definition crlf_content : str :=
  lit "A" ++ [13; 10]%N ++ lit "B" ++ [10; 32; 10]%N ++ lit "C" ++ [9]%N ++ lit "D".

Definition form_feed_content : str := lit "A" ++ [12]%N ++ lit "B".

(** A title with a surrogate on its own, as a file name that is not UTF-8
    gives one. *)
Definition surrogate_title : str := lit "scan" ++ [56448]%N ++ lit ".pdf".

(** The answer of the service that decides what [analyze_document] returns:
    the outcome of the generation call made from trace [tr]. *)
Definition generation_answer (w : world) (tr : list event) : result Response :=
  generate_content w (count is_generate tr).

(** The value of the analysis, by the answer of the generation call. *)
Definition analysis_value (mode : str) (answer : result Response)
    : option str * option str :=
  match answer with
  | Err _ => (None, None)
  | Ok response =>
      match text response with
      | Some (Ok raw) => Spec.parse raw mode
      | Some (Err _) => (None, None)
      | None => (None, None)
      end
  end.

(** Responses used as examples. *)
Definition hello_response : str := lit "--- START OF EXTRACTED TEXT ---
HELLO
--- END OF EXTRACTED TEXT ---".

Definition mixed_case_response : str := lit "--- start of extracted text ---
Hello
--- End Of Extracted Text ---".

Definition unmarked_response : str := lit "just some text".

(** A response whose summary section is empty. *)
Definition empty_summary_response : str := lit "--- START OF SUMMARY ---
--- END OF SUMMARY ---
--- START OF EXTRACTED TEXT ---
full text
--- END OF EXTRACTED TEXT ---".

(** The character [c] does not occur in [m]. *)
Definition absent (c : codepoint) (m : str) : bool :=
  forallb (fun p => negb (N.eqb p c)) m.

(** A file whose display name is a marker, and an ordinary one. *)
Definition marker_named_file : File :=
  {| name := lit "files/abc123";
     display_name := TEXT_START_MARKER ++ lit ".pdf";
     state_name := lit "ACTIVE" |}.

Definition ordinary_file : File :=
  {| name := lit "files/abc123";
     display_name := lit "report.pdf";
     state_name := lit "ACTIVE" |}.

(** The display name contains none of the four markers. *)
Definition marker_free (display : str) : Prop :=
  Spec.occurrences TEXT_START_MARKER display = []
  /\ Spec.occurrences TEXT_END_MARKER display = []
  /\ Spec.occurrences SUMMARY_START_MARKER display = []
  /\ Spec.occurrences SUMMARY_END_MARKER display = [].

(** ** Measures on the trace of an upload *)

(** The events that make the schedule of the attempts: the upload calls
    and the sleeps of the default delay between them. *)
Definition is_schedule (e : event) : bool := is_upload e || is_sleep_of 5 e.

(** [n] upload calls of [file_path] with a sleep of the delay between two. *)
Fixpoint schedule (file_path : str) (n : nat) : list event :=
  match n with
  | O => []
  | S O => [EvUpload file_path]
  | S n' => EvUpload file_path :: EvSleep 5 :: schedule file_path n'
  end.

Definition is_error_report (e : event) : bool := is_print_of is_upload_error e.
Definition is_failure_report (e : event) : bool := is_print_of is_upload_failed e.

(** An event that none of the measures above counts. *)
Definition quiet (e : event) : bool :=
  negb (is_schedule e) && negb (is_error_report e) && negb (is_failure_report e).

(** The polling loop needs at most this many iterations: the clock moves
    by fifteen seconds or more in each, and the time-out is 300 seconds. *)
Definition enough_fuel : nat := 22.

(** ** Worlds used as examples *)

Definition always_ok : nat -> result unit := fun _ => Ok tt.
Definition no_lag : nat -> N := fun _ => 0%N.

Definition file_in_state (file_name state : str) : File :=
  {| name := file_name; display_name := lit "report.pdf"; state_name := state |}.

Definition hello_answer : result Response :=
  Ok {| text := Some (Ok hello_response); prompt_feedback := None |}.

(** The service never gets the file out of PROCESSING, and the delete call
    fails as well. *)
Definition stuck_world : world :=
  {| path_exists := fun _ => true;
     upload_file := fun _ => Ok (file_in_state (lit "files/stuck") (lit "PROCESSING"));
     get_file := fun _ => Ok (file_in_state (lit "files/stuck") (lit "PROCESSING"));
     delete_file := fun _ => Err (Exception (lit "503 unavailable"));
     generate_content := fun _ => hello_answer;
     makedirs := always_ok;
     write_file := always_ok;
     lag := no_lag |}.

(** Two upload calls fail, the third one gives an active file. *)
Definition flaky_world : world :=
  {| path_exists := fun _ => true;
     upload_file := fun k =>
       if (k <? 2)%nat then Err (Exception (lit "connection reset"))
       else Ok (file_in_state (lit "files/third") (lit "ACTIVE"));
     get_file := fun _ => Ok (file_in_state (lit "files/third") (lit "ACTIVE"));
     delete_file := always_ok;
     generate_content := fun _ => hello_answer;
     makedirs := always_ok;
     write_file := always_ok;
     lag := no_lag |}.

(** The first upload succeeds and the file is being processed; the state
    query then fails once; the second upload gives an active file. *)
Definition poll_error_world : world :=
  {| path_exists := fun _ => true;
     upload_file := fun k =>
       if (k =? 0)%nat then Ok (file_in_state (lit "files/first") (lit "PROCESSING"))
       else Ok (file_in_state (lit "files/second") (lit "ACTIVE"));
     get_file := fun _ => Err (Exception (lit "503 unavailable"));
     delete_file := always_ok;
     generate_content := fun _ => hello_answer;
     makedirs := always_ok;
     write_file := always_ok;
     lag := no_lag |}.

(** What the time-out branch leaves at the top of the trace after the
    delete call: the report of the clean-up or the warning. *)
Definition timeout_report (file_name : str) (answer : result unit) : event :=
  match answer with
  | Ok _ => EvPrint (MsgCleanedTimedOut file_name)
  | Err e => EvPrint (MsgWarnDeleteTimedOut file_name e)
  end.

(** The events behind the upload: the generation call and the file system. *)
Definition is_output (e : event) : bool :=
  is_generate e || is_write e || is_makedirs e.

(** The local file is missing. *)
Definition empty_disk_world : world :=
  {| path_exists := fun _ => false;
     upload_file := fun _ => Ok (file_in_state (lit "files/none") (lit "ACTIVE"));
     get_file := fun _ => Ok (file_in_state (lit "files/none") (lit "ACTIVE"));
     delete_file := always_ok;
     generate_content := fun _ => hello_answer;
     makedirs := always_ok;
     write_file := always_ok;
     lag := no_lag |}.

(** The service rejects the file: the upload call gives it in state FAILED. *)
Definition failed_world : world :=
  {| path_exists := fun _ => true;
     upload_file := fun _ => Ok (file_in_state (lit "files/bad") (lit "FAILED"));
     get_file := fun _ => Ok (file_in_state (lit "files/bad") (lit "FAILED"));
     delete_file := fun _ => Err (Exception (lit "503 unavailable"));
     generate_content := fun _ => hello_answer;
     makedirs := always_ok;
     write_file := always_ok;
     lag := no_lag |}.

(** Whether a call of the file system succeeded. *)
Definition succeeded {A} (answer : result A) : bool :=
  match answer with
  | Ok _ => true
  | Err _ => false
  end.

(** What a writer does to the file system for the output path, given the
    write it attempts, if it gets to one: the directory of the path is
    created first when the path has one, and the write is attempted only if
    that succeeded. The latest event comes first. *)
Definition writer_actions (w : world) (st : state) (output_path : str)
    (the_write : option event) : list event * bool :=
  let directory := dirname output_path in
  let made :=
    if truthy directory
    then succeeded (makedirs w (count is_makedirs (trace st)))
    else true in
  let steps := if truthy directory then [EvMakeDirs directory] else [] in
  if made
  then match the_write with
       | Some ev => (ev :: steps, succeeded (write_file w (count is_write (trace st))))
       | None => (steps, false)
       end
  else (steps, false).

(** The save of the document that [save_to_word_file] gets to when the
    document can be built. *)
Definition docx_write (output_path content title language : str) : option event :=
  match word_document content title language with
  | Ok doc => Some (EvSaveDocx output_path doc)
  | Err _ => None
  end.

(** The body of the [try] of [DocumentAnalyzerGUI.analyze_document] in the
    window, with the values of the variables of the window;
    [base_filename] is the name the window derives from the input path for
    the title. *)
Definition window_analysis (fuel : nat)
    (input_path output_path base_filename output_format extract_mode language : str)
    : M unit :=
  uploaded_file <- upload_file_to_gemini fuel input_path ;;
  match uploaded_file with
  | Some uploaded_file =>
      r <- analyze_document uploaded_file extract_mode language ;;
      let '(extracted_text, summary_text) := r in
      let content := content_to_save extract_mode extracted_text summary_text in
      if truthy_opt content && truthy output_path then
        success <-
          (if Str.eqb output_format (lit "docx") then
             let title := document_title extract_mode base_filename in
             save_to_word_file content output_path title language
           else save_to_text_file content output_path) ;;
        if success : bool then print (MsgSavedTo output_path) else print MsgSaveFailed
      else print MsgNoContent
  | None => print MsgProcessFailed
  end.

(** ** Default output paths *)

Section DefaultPaths.

(** [os.path.splitext(os.path.basename(p))[0]], a function of the standard
    library that the program only applies. *)
Variable base_of : str -> str.

Definition extension (output_format : str) : str :=
  if Str.eqb output_format (lit "docx") then lit ".docx" else lit ".txt".

(** The output path of the script: the [--output_file] argument when it is
    given and not empty, else a name made from the input file name. *)
Definition script_output_path (input_file : str) (output_file : option str)
    (format mode language : str) : str :=
  let base_filename := base_of input_file in
  let default_ext := extension format in
  if truthy_opt output_file
  then match output_file with Some p => p | None => [] end
  else base_filename ++ lit "_" ++ mode ++ lit "_" ++ language ++ default_ext.

(** [update_default_output_path] of the window: the value it sets the
    output path to. *)
Definition update_default_output_path (input_filename extract_mode language
    output_format : str) : str :=
  let base_filename := base_of input_filename in
  let mode := extract_mode in
  let lang := language in
  let ext := extension output_format in
  let output_dir := dirname input_filename in
  output_dir ++ lit "/" ++ base_filename ++ lit "_" ++ mode ++ lit "_" ++ lang ++ ext.

End DefaultPaths.

(** A response in the format the prompts ask for. *)
Definition marked_response (before body after : str) : str :=
  before ++ TEXT_START_MARKER ++ body ++ TEXT_END_MARKER ++ after.

(** The marker [m] stands, letter case ignored, at one of the first [n]
    positions of [t]. *)
Definition marker_within (m t : str) (n : nat) : bool :=
  existsb (fun j => Spec.marker_at m (skipn j t)) (seq 0 n).

(** * Properties *)

Unset Implicit Arguments.

(** ** Whitespace trimming *)

Section Trimming.

Lemma lstrip_length (a : str) : (List.length (lstrip a) <= List.length a)%nat.
Proof.
  induction a as [|c a IH]; simpl; [lia|].
  destruct (isspace c); simpl; lia.
Qed.

Lemma lstrip_fixed_head (a : str) :
  lstrip a = a -> a = [] \/ exists c a', a = c :: a' /\ isspace c = false.
Proof.
  destruct a as [|c a']; [now left|]. intros H. right.
  exists c, a'. split; [reflexivity|].
  simpl in H. destruct (isspace c) eqn:E; [|reflexivity].
  pose proof (lstrip_length a') as L. rewrite H in L. simpl in L. lia.
Qed.

Lemma lstrip_idempotent (a : str) : lstrip (lstrip a) = lstrip a.
Proof.
  induction a as [|c a IH]; simpl; [reflexivity|].
  destruct (isspace c) eqn:E; [exact IH|]. simpl. now rewrite E.
Qed.

Lemma lstrip_snoc (a : str) (c : codepoint) :
  isspace c = false -> lstrip (a ++ [c]) = lstrip a ++ [c].
Proof.
  intros Hc. induction a as [|x a IH]; simpl.
  - now rewrite Hc.
  - destruct (isspace x); [exact IH|reflexivity].
Qed.

Lemma rstrip_idempotent (a : str) : rstrip (rstrip a) = rstrip a.
Proof.
  unfold rstrip. now rewrite rev_involutive, lstrip_idempotent.
Qed.

Lemma rstrip_keeps_head (a : str) : lstrip a = a -> lstrip (rstrip a) = rstrip a.
Proof.
  intros H. destruct (lstrip_fixed_head a H) as [->|(c & a' & -> & Hc)].
  - reflexivity.
  - unfold rstrip. simpl rev. rewrite (lstrip_snoc _ _ Hc), rev_app_distr.
    simpl. now rewrite Hc.
Qed.

Lemma strip_idempotent (a : str) : strip (strip a) = strip a.
Proof.
  unfold strip.
  rewrite (rstrip_keeps_head (lstrip a) (lstrip_idempotent a)).
  apply rstrip_idempotent.
Qed.

Lemma lstrip_head_not_space (a r : str) (c : codepoint) :
  lstrip a = c :: r -> isspace c = false.
Proof.
  induction a as [|x a IH]; simpl; [discriminate|].
  destruct (isspace x) eqn:E; [exact IH|].
  intros H. inversion H; subst. exact E.
Qed.

(** What [strip] returns neither begins nor ends with whitespace. *)
Lemma strip_clean_ends (a : str) : clean_ends (strip a) = true.
Proof.
  pose proof (rstrip_keeps_head (lstrip a) (lstrip_idempotent a)) as K.
  unfold strip in *. unfold rstrip in *.
  destruct (lstrip (rev (lstrip a))) as [|c r] eqn:E; [reflexivity|].
  pose proof (lstrip_head_not_space _ _ _ E) as Hc.
  cbn [rev] in *.
  destruct (lstrip_fixed_head _ K) as [N|(x & l & N & Hx)].
  - destruct (rev r); discriminate N.
  - assert (last (rev r ++ [c]) x = c) as L by apply last_last.
    rewrite N in *. unfold clean_ends. rewrite Hx, L, Hc. reflexivity.
Qed.

Lemma trimmed_strip (a : str) : trimmed (Some (strip a)).
Proof. split; [apply strip_clean_ends|apply strip_idempotent]. Qed.

Lemma truthy_rev (a : str) : truthy (rev a) = truthy a.
Proof.
  destruct a as [|c a]; [reflexivity|]. simpl.
  destruct (rev a); reflexivity.
Qed.

Lemma truthy_lstrip (a : str) : truthy (lstrip a) = Spec.has_non_whitespace a.
Proof.
  unfold Spec.has_non_whitespace.
  induction a as [|c a IH]; simpl; [reflexivity|].
  destruct (isspace c); simpl; [exact IH|reflexivity].
Qed.

Lemma non_whitespace_rev (a : str) :
  Spec.has_non_whitespace (rev a) = Spec.has_non_whitespace a.
Proof.
  unfold Spec.has_non_whitespace.
  induction a as [|c a IH]; simpl; [reflexivity|].
  rewrite existsb_app, IH. simpl. rewrite orb_false_r. apply orb_comm.
Qed.

Lemma non_whitespace_lstrip (a : str) :
  Spec.has_non_whitespace (lstrip a) = Spec.has_non_whitespace a.
Proof.
  unfold Spec.has_non_whitespace.
  induction a as [|c a IH]; simpl; [reflexivity|].
  destruct (isspace c) eqn:E; simpl; [exact IH|now rewrite E].
Qed.

(** [a.strip()] is truthy exactly when [a] has a non-whitespace character. *)
Lemma truthy_strip (a : str) : truthy (strip a) = Spec.has_non_whitespace a.
Proof.
  unfold strip, rstrip.
  now rewrite truthy_rev, truthy_lstrip, non_whitespace_rev, non_whitespace_lstrip.
Qed.

End Trimming.

(** ** The regular expression search finds the first marked section *)

Section Search.

Lemma match_literal_rest (fl : flags) (m t rest : str) :
  match_literal fl m t = Some rest -> rest = skipn (List.length m) t.
Proof.
  revert t. induction m as [|p m IH]; intros t H; simpl in *.
  - now inversion H.
  - destruct t as [|c t]; [discriminate|].
    destruct (literal_matches fl p c); [|discriminate]. now apply IH.
Qed.

Lemma lazy_group_first_marker (close t : str) :
  lazy_group parse_flags close t =
  option_map (fun j => firstn j t) (Spec.find_marker close t).
Proof.
  induction t as [|c t IH]; simpl; unfold Spec.marker_at.
  - destruct (match_literal parse_flags close []); reflexivity.
  - destruct (match_literal parse_flags close (c :: t)); [reflexivity|].
    cbn [dot_matches parse_flags DOTALL orb]. rewrite IH.
    destruct (Spec.find_marker close t); reflexivity.
Qed.

Lemma find_marker_none_later (m t : str) (k : nat) :
  Spec.find_marker m t = None -> Spec.find_marker m (skipn k t) = None.
Proof.
  revert t. induction k as [|k IH]; intros t H; [exact H|].
  destruct t as [|c t]; [exact H|].
  simpl skipn. apply IH. simpl in H.
  destruct (Spec.marker_at m (c :: t)); [discriminate|].
  destruct (Spec.find_marker m t); [discriminate|reflexivity].
Qed.

(** The backtracking search of [re] and the two-step search of the
    specification give the same group. *)
Lemma search_group_first_between (open close t : str) :
  search_group parse_flags open close t = Spec.first_between open close t.
Proof.
  induction t as [|x t IH].
  - unfold Spec.first_between. simpl. unfold match_here, Spec.marker_at.
    destruct (match_literal parse_flags open []) as [rest|] eqn:E; [|reflexivity].
    rewrite lazy_group_first_marker.
    apply match_literal_rest in E. subst rest. simpl Nat.add.
    destruct (Spec.find_marker close (skipn (List.length open) [])); reflexivity.
  - unfold Spec.first_between. simpl search_group. simpl Spec.find_marker.
    unfold match_here, Spec.marker_at.
    destruct (match_literal parse_flags open (x :: t)) as [rest|] eqn:E.
    + rewrite lazy_group_first_marker.
      apply match_literal_rest in E. simpl Nat.add. rewrite <- E.
      destruct (Spec.find_marker close rest) as [j|] eqn:F; [reflexivity|].
      rewrite IH. unfold Spec.first_between.
      destruct (Spec.find_marker open t) as [i|]; [|reflexivity].
      replace (skipn (i + List.length open) t) with (skipn (S i) rest).
      * now rewrite (find_marker_none_later close rest (S i) F).
      * rewrite E, skipn_skipn. reflexivity.
    + rewrite IH. unfold Spec.first_between.
      destruct (Spec.find_marker open t) as [i|]; reflexivity.
Qed.

(** What [find_marker] returns is a position of the marker, and the first. *)
Lemma find_marker_first (m t : str) (i : nat) :
  Spec.find_marker m t = Some i ->
  Spec.marker_at m (skipn i t) = true /\
  forall k, (k < i)%nat -> Spec.marker_at m (skipn k t) = false.
Proof.
  revert i. induction t as [|c t IH]; intros i H; simpl in H.
  - destruct (Spec.marker_at m []) eqn:E; [|discriminate].
    inversion H; subst. split; [exact E|]. intros k Hk; lia.
  - destruct (Spec.marker_at m (c :: t)) eqn:E.
    + inversion H; subst. split; [exact E|]. intros k Hk; lia.
    + destruct (Spec.find_marker m t) as [j|] eqn:F; [|discriminate].
      inversion H; subst. destruct (IH j eq_refl) as [A B].
      split; [exact A|]. intros [|k] Hk; [exact E|].
      simpl. apply B. lia.
Qed.

Lemma find_marker_none (m t : str) :
  Spec.find_marker m t = None ->
  forall k, Spec.marker_at m (skipn k t) = false.
Proof.
  induction t as [|c t IH]; intros H k; simpl in H.
  - destruct (Spec.marker_at m []) eqn:E; [discriminate|].
    destruct k; exact E.
  - destruct (Spec.marker_at m (c :: t)) eqn:E; [discriminate|].
    destruct (Spec.find_marker m t) eqn:F; [discriminate|].
    destruct k as [|k]; [exact E|]. simpl. now apply IH.
Qed.

End Search.

(** ** The parser *)

Section Parser.

Variables (w : world) (st : state).

(** The statements of the parser compute [Spec.parse]. *)
Lemma parse_sections_refines (raw mode : str) :
  returned (parse_sections raw mode w st) = Some (Spec.parse raw mode).
Proof.
  unfold parse_sections, Spec.parse, Spec.summary_section.
  rewrite !search_group_first_between, truthy_strip.
  destruct (Spec.first_between TEXT_START_MARKER TEXT_END_MARKER raw) as [g|];
    destruct (Str.eqb mode (lit "summary"));
    try destruct (Spec.first_between SUMMARY_START_MARKER SUMMARY_END_MARKER raw) as [s|];
    try destruct (Spec.has_non_whitespace raw);
    reflexivity.
Qed.

End Parser.

(** ** [analyze_document]: what it returns and what it does *)

Section Analysis.

Variables (w : world) (st : state).

Lemma parse_sections_run (raw mode : str) (st0 : state) :
  exists st1,
    parse_sections raw mode w st0 = (Val (Spec.parse raw mode), st1)
    /\ actions (trace st1) = actions (trace st0).
Proof.
  pose proof (parse_sections_refines w st0 raw mode) as R.
  revert R. unfold parse_sections.
  rewrite !search_group_first_between.
  destruct (Spec.first_between TEXT_START_MARKER TEXT_END_MARKER raw) as [g|];
    destruct (Str.eqb mode (lit "summary"));
    try destruct (Spec.first_between SUMMARY_START_MARKER SUMMARY_END_MARKER raw) as [s|];
    try destruct (truthy (strip raw));
    cbv [bind print ret returned fst]; intros R; inversion R as [R'];
    eexists; (split; [reflexivity|reflexivity]).
Qed.

Lemma analyze_document_run (f : File) (mode language : str) :
  exists st1,
    analyze_document f mode language w st =
      (Val (analysis_value mode (generation_answer w (trace st))), st1)
    /\ actions (trace st1) =
       (if truthy (name f) then [EvDeleteFile (name f)] else [])
       ++ EvGenerate (build_prompt f mode language) (name f) 600
       :: actions (trace st).
Proof.
  cbv [analyze_document try_finally try_except bind print ret
       model_generate_content effect hasattr_text response_text
       genai_delete_file analysis_value generation_answer].
  cbn [trace now].
  change (count is_generate (EvPrint MsgSending :: EvPrint (MsgAnalyzing language mode) :: trace st))
    with (count is_generate (trace st)).
  destruct (generate_content w (count is_generate (trace st))) as [response|e].
  - destruct (text response) as [[raw|e]|].
    + cbn.
      match goal with |- context [parse_sections raw mode w ?s0] =>
        destruct (parse_sections_run raw mode s0) as (s1 & E & A); rewrite E
      end.
      unfold actions in *. cbn in A.
      destruct (truthy (name f)); cbn; [destruct (delete_file w _); cbn|];
        eexists; (split; [reflexivity|]); cbn; rewrite A; reflexivity.
    + cbn. destruct (truthy (name f)); cbn; [destruct (delete_file w _); cbn|];
        eexists; (split; reflexivity).
    + cbn. destruct (prompt_feedback response); cbn;
        (destruct (truthy (name f)); cbn; [destruct (delete_file w _); cbn|]);
        eexists; (split; reflexivity).
  - cbn. destruct (truthy (name f)); cbn; [destruct (delete_file w _); cbn|];
      eexists; (split; reflexivity).
Qed.

End Analysis.

(** ** The claims about the parser and the analysis *)

Lemma parse_trimmed (raw mode : str) :
  trimmed (fst (Spec.parse raw mode)) /\ trimmed (snd (Spec.parse raw mode)).
Proof.
  unfold Spec.parse.
  destruct (Spec.first_between TEXT_START_MARKER TEXT_END_MARKER raw) as [g|];
    destruct (Spec.summary_section raw mode) as [s|]; simpl;
    try destruct (Spec.has_non_whitespace raw); cbn [fst snd];
    split; try exact I; apply trimmed_strip.
Qed.

(** C2: for every raw response, the full text the parser returns is the
    first substring strictly between the text start marker and the text end
    marker (letter case ignored, newlines included in the match), trimmed;
    the regular expression search finds exactly that substring, and finds
    nothing when the markers are not there, in which case a full text can
    only come from the fallback. The response
    "--- START OF EXTRACTED TEXT ---\nHELLO\n--- END OF EXTRACTED TEXT ---"
    parsed in full mode gives the full text "HELLO" and no summary, and
    markers in mixed case are found as well. *)
Theorem C2_full_text_between_text_markers :
  forall (raw mode : str) (w : world) (st : state),
    search_group parse_flags TEXT_START_MARKER TEXT_END_MARKER raw
      = Spec.first_between TEXT_START_MARKER TEXT_END_MARKER raw
    /\ option_map fst (returned (parse_sections raw mode w st)) =
       Some (match Spec.first_between TEXT_START_MARKER TEXT_END_MARKER raw with
             | Some section => Some (strip section)
             | None =>
                 match Spec.summary_section raw mode with
                 | Some _ => None
                 | None =>
                     if Spec.has_non_whitespace raw then Some (strip raw) else None
                 end
             end)
    /\ returned (parse_sections hello_response (lit "full") w st)
       = Some (Some (lit "HELLO"), None)
    /\ returned (parse_sections mixed_case_response (lit "full") w st)
       = Some (Some (lit "Hello"), None).
Proof.
  intros raw mode w st. split; [apply search_group_first_between|].
  rewrite !parse_sections_refines. split; [|split; vm_compute; reflexivity].
  unfold Spec.parse. simpl option_map.
  destruct (Spec.first_between TEXT_START_MARKER TEXT_END_MARKER raw) as [g|];
    destruct (Spec.summary_section raw mode) as [s|]; simpl;
    try destruct (Spec.has_non_whitespace raw); reflexivity.
Qed.

(** C3: when the marker search finds neither the text section nor the
    summary section (the summary search runs in summary mode only) and the
    raw response has a non-whitespace character, the parser returns the
    whole trimmed response as full text; when a section is found, both
    results are those of the marker search and the fallback is not applied.
    The response "just some text" gives the full text "just some text". *)
Theorem C3_fallback_to_whole_response :
  forall (raw mode : str) (w : world) (st : state),
    returned (parse_sections raw mode w st) =
    Some (match Spec.first_between TEXT_START_MARKER TEXT_END_MARKER raw,
                Spec.summary_section raw mode with
          | None, None =>
              (if Spec.has_non_whitespace raw then Some (strip raw) else None, None)
          | text_section, summary_section =>
              (option_map strip text_section, option_map strip summary_section)
          end)
    /\ returned (parse_sections unmarked_response (lit "full") w st)
       = Some (Some (lit "just some text"), None).
Proof.
  intros raw mode w st. rewrite !parse_sections_refines.
  split; [|vm_compute; reflexivity].
  unfold Spec.parse.
  destruct (Spec.first_between TEXT_START_MARKER TEXT_END_MARKER raw) as [g|];
    destruct (Spec.summary_section raw mode) as [s|]; simpl;
    try destruct (Spec.has_non_whitespace raw); reflexivity.
Qed.

(** C9: whatever the raw response and the mode, the full text and the
    summary that the parser and the analysis return, the fallback included,
    are trimmed when they are present: their first and their last character
    are not whitespace, and trimming them again changes nothing. A response
    without markers that is padded with blanks, tabs and line ends gives its
    text without the padding, and so do padded sections between markers. *)
Theorem C9_returned_texts_are_trimmed :
  forall (f : File) (raw mode language : str) (w : world) (st : state),
    (exists full summary,
       returned (parse_sections raw mode w st) = Some (full, summary)
       /\ trimmed full /\ trimmed summary)
    /\ (exists full summary,
          returned (analyze_document f mode language w st) = Some (full, summary)
          /\ trimmed full /\ trimmed summary)
    /\ returned (parse_sections padded_response (lit "full") w st)
       = Some (Some (lit "just some text"), None)
    /\ returned (parse_sections padded_sections_response (lit "summary") w st)
       = Some (Some (lit "long text"), Some (lit "short")).
Proof.
  intros f raw mode language w st. split; [|split; [|split]].
  - exists (fst (Spec.parse raw mode)), (snd (Spec.parse raw mode)).
    rewrite parse_sections_refines, <- surjective_pairing.
    split; [reflexivity|apply parse_trimmed].
  - destruct (analyze_document_run w st f mode language) as (st1 & E & _).
    rewrite E. unfold returned. simpl fst.
    exists (fst (analysis_value mode (generation_answer w (trace st)))),
           (snd (analysis_value mode (generation_answer w (trace st)))).
    rewrite <- surjective_pairing. split; [reflexivity|].
    unfold analysis_value.
    destruct (generation_answer w (trace st)) as [response|e]; [|simpl; auto].
    destruct (text response) as [[t|e]|]; simpl; auto using parse_trimmed.
  - rewrite parse_sections_refines. vm_compute. reflexivity.
  - rewrite parse_sections_refines. vm_compute. reflexivity.
Qed.

(** C10: the analysis always returns a pair to its caller and never lets
    an exception through: when the generation call raises, when the text
    of the response raises on access, and when the response has no text,
    the pair is (None, None); an exception of the final delete call does
    not come out either. *)
Theorem C10_analysis_never_raises :
  forall (f : File) (mode language : str) (w : world) (st : state),
    exists r st1,
      analyze_document f mode language w st = (Val r, st1)
      /\ match generation_answer w (trace st) with
         | Err _ => r = (None, None)
         | Ok response =>
             match text response with
             | Some (Err _) => r = (None, None)
             | None => r = (None, None)
             | Some (Ok raw) => r = Spec.parse raw mode
             end
         end.
Proof.
  intros f mode language w st.
  destruct (analyze_document_run w st f mode language) as (st1 & E & _).
  exists (analysis_value mode (generation_answer w (trace st))), st1.
  split; [exact E|]. unfold analysis_value.
  destruct (generation_answer w (trace st)) as [response|e]; [|reflexivity].
  destruct (text response) as [[t|e]|]; reflexivity.
Qed.

(** ** The content the callers save *)

(** C7, as stated, fails: in summary mode a summary that is present but
    empty (the parser returns one for an empty summary section) is not the
    content the caller selects; it selects the full text. *)
Lemma C7_counterexample_empty_summary :
  Spec.parse empty_summary_response (lit "summary") = (Some (lit "full text"), Some [])
  /\ content_to_save (lit "summary") (Some (lit "full text")) (Some [])
     = Some (lit "full text")
  /\ Spec.content_to_persist (lit "summary") (Some (lit "full text")) (Some [])
     = Some []
  /\ ~ (forall mode full summary,
          content_to_save mode full summary
          = Spec.content_to_persist mode full summary).
Proof.
  repeat split; try (vm_compute; reflexivity).
  intros H.
  specialize (H (lit "summary") (Some (lit "full text")) (Some [])).
  vm_compute in H. discriminate H.
Qed.

(** C7, amended: the caller selects the summary exactly when the mode is
    "summary" and the summary is present and not empty; in every other case
    (another mode, or a summary that is absent or empty) it selects the
    full text. *)
Theorem C7_content_to_save_selection :
  forall (mode : str) (full summary : option str),
    content_to_save mode full summary =
    match summary with
    | Some s => if Str.eqb mode (lit "summary") && truthy s then Some s else full
    | None => full
    end.
Proof.
  intros mode full [s|]; unfold content_to_save; simpl.
  - reflexivity.
  - now rewrite andb_false_r.
Qed.

(** ** The document writer *)

Section RunContent.

Lemma surrogate_not_xml_char (c : codepoint) :
  surrogate c = true -> xml_char c = false.
Proof.
  unfold surrogate, xml_char, in_range. intros H.
  apply andb_true_iff in H. destruct H as [L U].
  apply N.leb_le in L. apply N.leb_le in U.
  repeat (apply orb_false_iff; split);
    try (apply N.eqb_neq; lia);
    try (apply andb_false_iff; (left; apply N.leb_gt; lia) || (right; apply N.leb_gt; lia));
    apply N.leb_gt; lia.
Qed.

Lemma encode_error_refused (i : nat) (text : str) :
  match encode_error i text with
  | Some _ => forallb xml_char text = false
  | None => True
  end.
Proof.
  revert i. induction text as [|c text IH]; intros i; cbn [encode_error]; [exact I|].
  destruct (surrogate c) eqn:S.
  - cbn [forallb]. now rewrite (surrogate_not_xml_char c S).
  - specialize (IH (Datatypes.S i)). destruct (encode_error _ text); [|exact I].
    cbn [forallb]. rewrite IH. apply andb_false_r.
Qed.

Lemma add_t_spec (text : str) :
  match add_t text with
  | Ok t => forallb xml_char text = true /\ t = RunText text
  | Err _ => forallb xml_char text = false
  end.
Proof.
  unfold add_t. pose proof (encode_error_refused 0 text) as H.
  destruct (encode_error 0 text); [exact H|].
  destruct (forallb xml_char text); [split|]; reflexivity.
Qed.

Lemma forallb_rev (q : codepoint -> bool) (a : str) :
  forallb q (rev a) = forallb q a.
Proof.
  induction a as [|c a IH]; [reflexivity|].
  cbn [rev forallb]. rewrite forallb_app, IH. cbn [forallb].
  rewrite andb_true_r. apply andb_comm.
Qed.

Lemma flush_spec (bfr : str) :
  match flush bfr with
  | Ok items =>
      forallb xml_char bfr = true /\ List.concat (map item_text items) = rev bfr
  | Err _ => forallb xml_char bfr = false
  end.
Proof.
  unfold flush. destruct bfr as [|c bfr]; [split; reflexivity|].
  pose proof (add_t_spec (rev (c :: bfr))) as H.
  rewrite forallb_rev in H.
  destruct (add_t (rev (c :: bfr))) as [t|e]; [|exact H].
  destruct H as [H ->]. split; [exact H|]. cbn [map List.concat item_text].
  apply app_nil_r.
Qed.

Lemma run_items_from_spec (text bfr : str) :
  match run_items_from bfr text with
  | Ok items =>
      forallb xml_char bfr && forallb xml_char text = true
      /\ List.concat (map item_text items) = rev bfr ++ map cr_to_lf text
  | Err _ => forallb xml_char bfr && forallb xml_char text = false
  end.
Proof.
  revert bfr. induction text as [|c text IH]; intros bfr; cbn [run_items_from].
  - pose proof (flush_spec bfr) as F. cbn [forallb map].
    rewrite andb_true_r, app_nil_r. exact F.
  - unfold cr_to_lf at 1. cbn [map forallb].
    destruct (N.eqb c 9) eqn:T; [|destruct (N.eqb c 13) eqn:R;
                                   [|destruct (N.eqb c 10) eqn:L]]; cbn [orb].
    + apply N.eqb_eq in T. subst c. cbn [xml_char N.eqb orb andb Pos.eqb].
      pose proof (flush_spec bfr) as F. destruct (flush bfr) as [flushed|e].
      * destruct F as [F1 F2]. specialize (IH []).
        destruct (run_items_from [] text) as [items|e'].
        -- destruct IH as [I1 I2]. cbn [forallb andb rev app] in I1, I2.
           rewrite F1, I1. split; [reflexivity|].
           rewrite map_app, concat_app. cbn [map List.concat item_text].
           rewrite F2, I2. reflexivity.
        -- cbn [forallb andb] in IH. rewrite IH. apply andb_false_r.
      * now rewrite F.
    + apply N.eqb_eq in R. subst c.
      pose proof (flush_spec bfr) as F. destruct (flush bfr) as [flushed|e].
      * destruct F as [F1 F2]. specialize (IH []).
        destruct (run_items_from [] text) as [items|e'].
        -- destruct IH as [I1 I2]. cbn [forallb andb rev app] in I1, I2.
           rewrite F1, I1. split; [reflexivity|].
           rewrite map_app, concat_app. cbn [map List.concat item_text].
           rewrite F2, I2. reflexivity.
        -- cbn [forallb andb] in IH. rewrite IH. apply andb_false_r.
      * now rewrite F.
    + apply N.eqb_eq in L. subst c.
      pose proof (flush_spec bfr) as F. destruct (flush bfr) as [flushed|e].
      * destruct F as [F1 F2]. specialize (IH []).
        destruct (run_items_from [] text) as [items|e'].
        -- destruct IH as [I1 I2]. cbn [forallb andb rev app] in I1, I2.
           rewrite F1, I1. split; [reflexivity|].
           rewrite map_app, concat_app. cbn [map List.concat item_text].
           rewrite F2, I2. reflexivity.
        -- cbn [forallb andb] in IH. rewrite IH. apply andb_false_r.
      * now rewrite F.
    + specialize (IH (c :: bfr)). cbn [forallb rev] in IH.
      replace (forallb xml_char bfr && (xml_char c && forallb xml_char text))
        with (xml_char c && forallb xml_char bfr && forallb xml_char text)
        by (destruct (xml_char c), (forallb xml_char bfr); reflexivity).
      destruct (run_items_from (c :: bfr) text) as [items|e]; [|exact IH].
      destruct IH as [I1 I2]. split; [exact I1|].
      rewrite I2, <- app_assoc. reflexivity.
Qed.

(** A run is added exactly when every character of its text is one that
    XML text may hold; read back, its text is the text it was given with
    line feeds for carriage returns. *)
Lemma add_run_spec (text : str) :
  match add_run text with
  | Ok r =>
      forallb xml_char text = true
      /\ run_text r = map cr_to_lf text
      /\ bold r = None /\ font_size_pt r = None
  | Err _ => forallb xml_char text = false
  end.
Proof.
  unfold add_run, run_items. destruct text as [|c text]; cbn [truthy].
  - repeat split.
  - pose proof (run_items_from_spec (c :: text) []) as H.
    destruct (run_items_from [] (c :: text)) as [items|e]; [|exact H].
    destruct H as [H1 H2]. repeat split; assumption.
Qed.

End RunContent.

Lemma Forall2_Forall_left {A B : Type} (R : A -> B -> Prop) (P : A -> Prop)
    (l1 : list A) (l2 : list B) :
  (forall a b, R a b -> P a) -> Forall2 R l1 l2 -> Forall P l1.
Proof. intros H F. induction F; constructor; eauto. Qed.

Section Writer.

Variables (content title language : str).

(** The step of the loop over the chunks of the content. *)
Let add_chunk (rtl : bool) (built : result document) (para : str) : result document :=
  match built with
  | Err e => Err e
  | Ok doc =>
      if truthy (strip para) then
        match add_run para with
        | Err e => Err e
        | Ok r =>
            Ok (add_paragraph doc
                  {| p_alignment := if rtl then Some RIGHT else None; runs := [r] |})
        end
      else Ok doc
  end.

(** A content paragraph for a chunk: its alignment and its one run. *)
Let content_paragraph (rtl : bool) (p : paragraph) (chunk : str) : Prop :=
  p_alignment p = (if rtl then Some RIGHT else None)
  /\ exists r, add_run chunk = Ok r /\ runs p = [r]
               /\ run_text r = map cr_to_lf chunk.

Lemma add_chunk_after_error (rtl : bool) (chunks : list str) (e : exn) :
  fold_left (add_chunk rtl) chunks (Err e) = Err e.
Proof. induction chunks as [|c chunks IH]; [reflexivity|exact IH]. Qed.

Lemma add_content_paragraphs (rtl : bool) (chunks : list str) (doc : document) :
  match fold_left (add_chunk rtl) chunks (Ok doc) with
  | Ok built =>
      forallb (forallb xml_char) (filter Spec.has_non_whitespace chunks) = true
      /\ normal_alignment built = normal_alignment doc
      /\ exists added,
           paragraphs built = paragraphs doc ++ added
           /\ Forall2 (content_paragraph rtl) added
                      (filter Spec.has_non_whitespace chunks)
  | Err _ =>
      forallb (forallb xml_char) (filter Spec.has_non_whitespace chunks) = false
  end.
Proof.
  revert doc. induction chunks as [|c chunks IH]; intros doc.
  - cbn. split; [reflexivity|]. split; [reflexivity|].
    exists []. split; [now rewrite app_nil_r|constructor].
  - cbn [fold_left filter]. unfold add_chunk at 2. rewrite truthy_strip.
    destruct (Spec.has_non_whitespace c); [|apply IH].
    pose proof (add_run_spec c) as R. cbn [forallb].
    destruct (add_run c) as [r|e] eqn:E.
    + destruct R as (R1 & R2 & _). rewrite R1. cbn [andb].
      specialize (IH (add_paragraph doc
                        {| p_alignment := if rtl then Some RIGHT else None;
                           runs := [r] |})).
      destruct (fold_left _ chunks _) as [built|e]; [|exact IH].
      destruct IH as (I1 & I2 & added & I3 & I4).
      split; [exact I1|]. split; [exact I2|].
      eexists (_ :: added). split.
      * rewrite I3. cbn [add_paragraph paragraphs]. now rewrite <- app_assoc.
      * constructor; [|exact I4]. split; [reflexivity|].
        exists r. repeat split; assumption.
    + rewrite add_chunk_after_error, R. reflexivity.
Qed.

(** The document that is built, and when building it raises. *)
Lemma word_document_shape :
  let rtl := Str.eqb language (lit "arabic") in
  let chunks := filter Spec.has_non_whitespace (split newline content) in
  match word_document content title language with
  | Ok doc =>
      forallb xml_char title && forallb (forallb xml_char) chunks = true
      /\ normal_alignment doc = (if rtl then Some RIGHT else None)
      /\ exists r added,
           add_run title = Ok r
           /\ run_text r = map cr_to_lf title
           /\ paragraphs doc
              = {| p_alignment := Some CENTER;
                   runs := [{| run_content := run_content r;
                               bold := Some true; font_size_pt := Some 16%Z |}] |}
                :: {| p_alignment := None; runs := [] |} :: added
           /\ Forall2 (content_paragraph rtl) added chunks
  | Err _ => forallb xml_char title && forallb (forallb xml_char) chunks = false
  end.
Proof.
  cbv zeta. unfold word_document.
  pose proof (add_run_spec title) as T.
  destruct (add_run title) as [r|e] eqn:E.
  2:{ destruct (Str.eqb language (lit "arabic")); cbv zeta; rewrite T; reflexivity. }
  destruct T as (T1 & T2 & _). rewrite T1. cbn [andb].
  destruct (Str.eqb language (lit "arabic")); cbv zeta.
  - pose proof (add_content_paragraphs true (split newline content)) as A.
    match goal with
    | |- match fold_left _ _ (Ok ?d) with _ => _ end => specialize (A d)
    end.
    fold (add_chunk true).
    destruct (fold_left _ _ _) as [built|e']; [|exact A].
    destruct A as (A1 & A2 & added & A3 & A4).
    split; [exact A1|]. split; [exact A2|].
    exists r, added. repeat split; assumption.
  - pose proof (add_content_paragraphs false (split newline content)) as A.
    match goal with
    | |- match fold_left _ _ (Ok ?d) with _ => _ end => specialize (A d)
    end.
    fold (add_chunk false).
    destruct (fold_left _ _ _) as [built|e']; [|exact A].
    destruct A as (A1 & A2 & added & A3 & A4).
    split; [exact A1|]. split; [exact A2|].
    exists r, added. repeat split; assumption.
Qed.

End Writer.

(** C8: the document writer builds a document exactly when the title and
    the non-blank chunks of the content have no character that XML text
    cannot hold (otherwise the library raises and there is no document). In
    the document the title paragraph comes first and is centred whatever
    the language, an empty paragraph follows, and the content paragraphs
    are, in order, one for each non-blank chunk between newlines, so a
    blank chunk gives no paragraph; each holds the run that the library
    makes of its chunk, whose text reads back as the chunk with line feeds
    for carriage returns. When the right-to-left flag is set (language
    "arabic") the Normal style and every content paragraph are
    right-aligned; when it is not set, no alignment is set on them and they
    are rendered with the default, left. A content with a carriage return,
    a blank chunk and a tab, one with a form feed, and a title with a
    surrogate show the cases. *)
Theorem C8_document_alignment :
  forall (content title language : str),
    let rtl := Str.eqb language (lit "arabic") in
    let chunks := filter Spec.has_non_whitespace (split newline content) in
    (if forallb xml_char title && forallb (forallb xml_char) chunks
     then exists doc,
         word_document content title language = Ok doc
         /\ (exists r,
               add_run title = Ok r
               /\ run_text r = map cr_to_lf title
               /\ nth_error (paragraphs doc) 0
                  = Some {| p_alignment := Some CENTER;
                            runs := [{| run_content := run_content r;
                                        bold := Some true;
                                        font_size_pt := Some 16%Z |}] |})
         /\ nth_error (paragraphs doc) 1 = Some {| p_alignment := None; runs := [] |}
         /\ Forall2 (fun p chunk =>
                       exists r, add_run chunk = Ok r /\ runs p = [r]
                                 /\ run_text r = map cr_to_lf chunk)
                    (skipn 2 (paragraphs doc)) chunks
         /\ normal_alignment doc = (if rtl then Some RIGHT else None)
         /\ Forall (fun p => p_alignment p = if rtl then Some RIGHT else None)
                   (skipn 2 (paragraphs doc))
         /\ Forall (fun p => effective_alignment doc p = if rtl then RIGHT else LEFT)
                   (skipn 2 (paragraphs doc))
     else exists e, word_document content title language = Err e)
    /\ word_document crlf_content (lit "Title") (lit "arabic")
       = Ok {| normal_alignment := Some RIGHT;
               paragraphs :=
                 [ {| p_alignment := Some CENTER;
                      runs := [{| run_content := [RunText (lit "Title")];
                                  bold := Some true; font_size_pt := Some 16%Z |}] |};
                   {| p_alignment := None; runs := [] |};
                   {| p_alignment := Some RIGHT;
                      runs := [{| run_content := [RunText (lit "A"); RunBreak];
                                  bold := None; font_size_pt := None |}] |};
                   {| p_alignment := Some RIGHT;
                      runs := [{| run_content := [RunText (lit "B")];
                                  bold := None; font_size_pt := None |}] |};
                   {| p_alignment := Some RIGHT;
                      runs := [{| run_content := [RunText (lit "C"); RunTab;
                                                  RunText (lit "D")];
                                  bold := None; font_size_pt := None |}] |} ] |}
    /\ option_map (map p_alignment)
         (match word_document crlf_content (lit "Title") (lit "english") with
          | Ok doc => Some (paragraphs doc)
          | Err _ => None
          end)
       = Some [Some CENTER; None; None; None; None]
    /\ word_document form_feed_content (lit "Title") (lit "arabic")
       = Err xml_value_error
    /\ word_document (lit "text") surrogate_title (lit "english")
       = Err (Exception (lit "'utf-8' codec can't encode character '\udc80' in position 4: surrogates not allowed")).
Proof.
  intros content title language. cbv zeta.
  split; [|repeat split; vm_compute; reflexivity].
  pose proof (word_document_shape content title language) as W. cbv zeta in W.
  destruct (word_document content title language) as [doc|e].
  - destruct W as (W1 & W2 & r & added & W3 & W4 & W5 & W6).
    rewrite W1. exists doc. split; [reflexivity|]. rewrite W5.
    cbn [nth_error skipn].
    split; [exists r; repeat split; assumption|].
    split; [reflexivity|].
    split; [|split; [exact W2|split]].
    + eapply Forall2_impl; [|exact W6]. intros p chunk [_ H]. exact H.
    + eapply Forall2_Forall_left; [|exact W6]. intros p chunk [H _]. exact H.
    + eapply Forall2_Forall_left; [|exact W6]. intros p chunk [H _].
      unfold effective_alignment. rewrite H, W2.
      destruct (Str.eqb language (lit "arabic")); reflexivity.
  - rewrite W. exists e. reflexivity.
Qed.

(** ** Occurrences of the markers in the prompt *)

Section Occurrences.

Import Spec.

Lemma occurrences_from_shift (i : nat) (m t : str) :
  occurrences_from i m t = map (Nat.add i) (occurrences m t).
Proof.
  unfold occurrences. revert i. induction t as [|c t IH]; intros i; simpl.
  - destruct (starts_with m []); simpl; [now rewrite Nat.add_0_r|reflexivity].
  - rewrite map_app, (IH (S i)), (IH 1%nat), map_map.
    f_equal.
    + destruct (starts_with m (c :: t)); simpl; [now rewrite Nat.add_0_r|reflexivity].
    + apply map_ext. intros k. lia.
Qed.

Lemma starts_with_before (m a b : str) (c : codepoint) :
  absent c m = true -> starts_with m (a ++ c :: b) = starts_with m a.
Proof.
  revert a. induction m as [|p m IH]; intros a H; [now destruct a|].
  simpl in H. apply andb_true_iff in H. destruct H as [Hp Hm].
  destruct a as [|x a]; simpl.
  - apply negb_true_iff in Hp. now rewrite Hp.
  - now rewrite IH.
Qed.

Lemma occurrences_before (i : nat) (m a b : str) (c : codepoint) :
  m <> [] -> absent c m = true ->
  occurrences_from i m (a ++ c :: b)
  = occurrences_from i m a ++ occurrences_from (i + List.length a) m (c :: b).
Proof.
  intros Hm Hc. revert i. induction a as [|x a IH]; intros i.
  - simpl app. rewrite Nat.add_0_r.
    destruct m; [contradiction|]. reflexivity.
  - change ((x :: a) ++ c :: b) with (x :: (a ++ c :: b)).
    cbn [occurrences_from].
    change (starts_with m (x :: a ++ c :: b))
      with (starts_with m ((x :: a) ++ c :: b)).
    rewrite (starts_with_before m (x :: a) b c Hc), IH, <- app_assoc.
    replace (i + List.length (x :: a))%nat with (S i + List.length a)%nat
      by (simpl; lia).
    reflexivity.
Qed.

Lemma occurrences_after (i : nat) (p : codepoint) (m a b : str) :
  absent p a = true ->
  occurrences_from i (p :: m) (a ++ b)
  = occurrences_from (i + List.length a) (p :: m) b.
Proof.
  revert i. induction a as [|x a IH]; intros i H.
  - simpl. now rewrite Nat.add_0_r.
  - simpl in H. apply andb_true_iff in H. destruct H as [Hx Ha].
    change ((x :: a) ++ b) with (x :: (a ++ b)). cbn [occurrences_from starts_with].
    apply negb_true_iff in Hx. rewrite N.eqb_sym in Hx. rewrite Hx. simpl.
    rewrite IH by exact Ha. f_equal. simpl. lia.
Qed.

End Occurrences.

Section Prompt.

Import Spec.

Variables (f : File) (mode language : str).

Lemma prompt_split :
  build_prompt f mode language
  = prompt_head ++ display_name f ++ prompt_tail mode language.
Proof.
  unfold prompt_tail, build_prompt.
  destruct (Str.eqb mode (lit "summary")); reflexivity.
Qed.

Lemma prompt_tail_head :
  exists rest, prompt_tail mode language = 41%N :: rest.
Proof.
  unfold prompt_tail, build_prompt.
  destruct (Str.eqb mode (lit "summary")); eexists; reflexivity.
Qed.

(** A marker occurs in the prompt where it occurs in the display name and
    where the template has it. *)
Lemma occurrences_in_prompt (p : codepoint) (m : str) :
  absent p prompt_head = true ->
  absent 41%N (p :: m) = true ->
  occurrences (p :: m) (build_prompt f mode language)
  = map (Nat.add (List.length prompt_head)) (occurrences (p :: m) (display_name f))
    ++ map (Nat.add (List.length prompt_head + List.length (display_name f)))
           (occurrences (p :: m) (prompt_tail mode language)).
Proof.
  intros Hhead Hparen. rewrite prompt_split.
  destruct prompt_tail_head as (rest & ->).
  unfold occurrences at 1.
  rewrite occurrences_after by exact Hhead.
  rewrite occurrences_before by (discriminate || exact Hparen).
  now rewrite !occurrences_from_shift.
Qed.

End Prompt.

Section PromptMarkers.

Import Spec.

Lemma marker_occurrences_in_prompt (f : File) (mode language m : str) :
  match m with [] => false | p :: _ => absent p prompt_head end = true ->
  absent 41%N m = true ->
  occurrences m (build_prompt f mode language)
  = map (Nat.add (List.length prompt_head)) (occurrences m (display_name f))
    ++ map (Nat.add (List.length prompt_head + List.length (display_name f)))
           (occurrences m (prompt_tail mode language)).
Proof.
  destruct m as [|p m]; [discriminate|]. apply occurrences_in_prompt.
Qed.

Ltac template_occurrences :=
  repeat match goal with
  | |- context [occurrences ?m (prompt_tail ?a ?b)] =>
      let v := eval vm_compute in (occurrences m (prompt_tail a b)) in
      replace (occurrences m (prompt_tail a b)) with v by (vm_compute; reflexivity)
  end.

(** C6, as stated, fails: the display name of the file is part of the
    prompt, and a display name that contains a marker adds an occurrence. *)
Lemma C6_counterexample_marker_in_display_name :
  valid_mode (lit "full") /\ valid_language (lit "english")
  /\ List.length (occurrences TEXT_START_MARKER
                    (build_prompt marker_named_file (lit "full") (lit "english")))
     = 2%nat.
Proof.
  split; [left; reflexivity|]. split; [right; reflexivity|].
  vm_compute. reflexivity.
Qed.

(** C6, amended: for every valid (mode, language) pair and every file whose
    display name contains none of the markers, the prompt has exactly one
    occurrence of the text start marker and one of the text end marker, the
    start before the end, and in summary mode also exactly one occurrence
    of each summary marker, the summary pair before the text pair. *)
Theorem C6_prompt_markers :
  forall (f : File) (mode language : str),
    valid_mode mode -> valid_language language -> marker_free (display_name f) ->
    let prompt := build_prompt f mode language in
    exists ts te,
      occurrences TEXT_START_MARKER prompt = [ts]
      /\ occurrences TEXT_END_MARKER prompt = [te]
      /\ (ts < te)%nat
      /\ (mode = lit "summary" ->
          exists ss se,
            occurrences SUMMARY_START_MARKER prompt = [ss]
            /\ occurrences SUMMARY_END_MARKER prompt = [se]
            /\ (ss < se)%nat /\ (se < ts)%nat).
Proof.
  intros f mode language Hm Hl (F1 & F2 & F3 & F4). cbv zeta.
  rewrite !marker_occurrences_in_prompt by (vm_compute; reflexivity).
  rewrite F1, F2, F3, F4. cbn [map app].
  destruct Hm as [-> | ->]; destruct Hl as [-> | ->];
    template_occurrences; cbn [map];
    do 2 eexists; (split; [reflexivity|]); (split; [reflexivity|]);
    (split; [lia|]); intros Hs;
    try (vm_compute in Hs; discriminate Hs);
    do 2 eexists; (split; [reflexivity|]); (split; [reflexivity|]); lia.
Qed.

Lemma C6_prompt_markers_witness :
  exists ts te,
    occurrences TEXT_START_MARKER
      (build_prompt ordinary_file (lit "summary") (lit "arabic")) = [ts]
    /\ occurrences TEXT_END_MARKER
         (build_prompt ordinary_file (lit "summary") (lit "arabic")) = [te]
    /\ (ts < te)%nat
    /\ (lit "summary" = lit "summary" ->
        exists ss se,
          occurrences SUMMARY_START_MARKER
            (build_prompt ordinary_file (lit "summary") (lit "arabic")) = [ss]
          /\ occurrences SUMMARY_END_MARKER
               (build_prompt ordinary_file (lit "summary") (lit "arabic")) = [se]
          /\ (ss < se)%nat /\ (se < ts)%nat).
Proof.
  apply (C6_prompt_markers ordinary_file (lit "summary") (lit "arabic")).
  - right; reflexivity.
  - left; reflexivity.
  - repeat split; vm_compute; reflexivity.
Defined.

End PromptMarkers.

(** ** The upload: frames and termination *)

Section Upload.

Variable w : world.

Lemma eqb_eq (a b : str) : Str.eqb a b = true <-> a = b.
Proof.
  revert b. induction a as [|x a IH]; intros [|y b]; simpl; split; intros H;
    try discriminate; try reflexivity.
  - apply andb_true_iff in H. destruct H as [H1 H2].
    apply N.eqb_eq in H1. apply IH in H2. now subst.
  - inversion H; subst. rewrite N.eqb_refl. simpl. now apply IH.
Qed.

(** The polling loop ends when it has fuel for the time that is left, and
    what it adds to the trace is quiet. *)
Lemma wait_for_processing_frame (fuel : nat) (start : Z) :
  forall (f : File) (st : state),
    (1 <= fuel)%nat ->
    (seconds 300 < now st - start + seconds 15 * Z.of_nat (fuel - 1))%Z ->
    exists r st1 added,
      wait_for_processing fuel 300 start f w st = (r, st1)
      /\ r <> Diverge
      /\ trace st1 = added ++ trace st
      /\ forallb quiet added = true.
Proof.
  induction fuel as [|fuel IH]; intros f st Hf Ht; [lia|].
  cbn [wait_for_processing].
  destruct (Str.eqb (state_name f) (lit "PROCESSING")).
  2:{ do 2 eexists. exists []. cbv [ret]. repeat split. discriminate. }
  cbv [bind time_time]. cbn [now].
  destruct (now st - start >? seconds 300)%Z eqn:Hto.
  - cbv [print try_except genai_delete_file effect bind ret]. cbn [trace now].
    destruct (delete_file w _);
      do 2 eexists; eexists [_; _; _]; (split; [reflexivity|]);
      (split; [discriminate|]); split; reflexivity.
  - cbv [time_sleep genai_get_file effect print]. cbn [trace now].
    destruct (get_file w _) as [g|e].
    + match goal with |- context [wait_for_processing fuel 300 start g w ?s] =>
        destruct (IH g s) as (r & st1 & added & E & D & T & Q)
      end.
      * rewrite Z.gtb_ltb in Hto. apply Z.ltb_ge in Hto.
        unfold seconds in *. lia.
      * cbn [now]. rewrite Z.gtb_ltb in Hto. apply Z.ltb_ge in Hto.
        unfold seconds in *. lia.
      * rewrite E. exists r, st1, (added ++ [EvPrint (MsgCurrentState (state_name g));
                                             EvGetFile (name f); EvSleep 15]).
        split; [reflexivity|]. split; [exact D|]. split.
        -- rewrite T. cbn [trace]. now rewrite <- app_assoc.
        -- rewrite forallb_app, Q. reflexivity.
    + do 2 eexists; eexists [_; _]; (split; [reflexivity|]);
        (split; [discriminate|]); split; reflexivity.
Qed.

Lemma quiet_filter (q : event -> bool) (added : list event) :
  (forall e, quiet e = true -> q e = false) ->
  forallb quiet added = true -> filter q added = [].
Proof.
  intros Hq. induction added as [|e added IH]; simpl; intros H; [reflexivity|].
  apply andb_true_iff in H. destruct H as [He Ha].
  rewrite (Hq e He). now apply IH.
Qed.

Lemma quiet_not_schedule (e : event) : quiet e = true -> is_schedule e = false.
Proof. unfold quiet. destruct (is_schedule e); [discriminate|reflexivity]. Qed.

Lemma quiet_not_error (e : event) : quiet e = true -> is_error_report e = false.
Proof.
  unfold quiet. destruct (is_error_report e); [|reflexivity].
  rewrite andb_false_r. discriminate.
Qed.

Lemma quiet_not_failure (e : event) : quiet e = true -> is_failure_report e = false.
Proof.
  unfold quiet. destruct (is_failure_report e); [|reflexivity].
  rewrite andb_false_r. discriminate.
Qed.

Lemma quiet_not_upload (e : event) : quiet e = true -> is_upload e = false.
Proof.
  intros H. apply quiet_not_schedule in H. unfold is_schedule in H.
  now apply orb_false_iff in H.
Qed.

(** One attempt: the upload call, then quiet events, and an end. *)
Lemma upload_attempt_frame (fuel : nat) (file_path : str) (st : state) :
  (enough_fuel <= fuel)%nat ->
  exists r st1 added,
    upload_attempt fuel file_path w st = (r, st1)
    /\ r <> Diverge
    /\ trace st1 = added ++ EvUpload file_path :: trace st
    /\ forallb quiet added = true.
Proof.
  intros Hfuel. unfold enough_fuel in Hfuel.
  cbv [upload_attempt bind genai_upload_file effect print time_time].
  cbn [trace now].
  destruct (upload_file w _) as [f|e].
  2:{ do 2 eexists. exists []. repeat split. discriminate. }
  match goal with |- context [wait_for_processing fuel 300 ?t f w ?s] =>
    destruct (wait_for_processing_frame fuel t f s) as (r & st1 & added & E & D & T & Q)
  end.
  - lia.
  - cbn [now]. unfold seconds. lia.
  - rewrite E. cbn [trace] in T.
    destruct r as [[v|g]| |]; [| | |contradiction].
    + cbv [ret]. do 2 eexists. exists (added ++ [EvPrint MsgWaiting; EvPrint (MsgUploaded (name f))]).
      split; [reflexivity|]. split; [discriminate|]. split.
      * rewrite T, <- app_assoc. reflexivity.
      * rewrite forallb_app, Q. reflexivity.
    + destruct (Str.eqb (state_name g) (lit "ACTIVE")).
      * cbv [ret]. do 2 eexists.
        exists (EvPrint MsgActive :: added ++ [EvPrint MsgWaiting; EvPrint (MsgUploaded (name f))]).
        split; [reflexivity|]. split; [discriminate|]. split.
        -- cbn [trace app]. rewrite T, <- app_assoc. reflexivity.
        -- cbn [forallb]. rewrite forallb_app, Q. reflexivity.
      * cbv [try_except genai_delete_file effect bind print ret]. cbn [trace now].
        destruct (negb (Str.eqb (state_name g) (lit "DELETED")));
          [destruct (delete_file w _)|]; cbn [trace now];
          do 2 eexists;
          [exists ([EvPrint (MsgCleanedState (state_name g) (name g)); EvDeleteFile (name g);
                    EvPrint (MsgBadState (state_name g))]
                   ++ added ++ [EvPrint MsgWaiting; EvPrint (MsgUploaded (name f))])
          |eexists ([_; EvDeleteFile (name g); EvPrint (MsgBadState (state_name g))]
                   ++ added ++ [EvPrint MsgWaiting; EvPrint (MsgUploaded (name f))])
          |exists ([EvPrint (MsgBadState (state_name g))]
                   ++ added ++ [EvPrint MsgWaiting; EvPrint (MsgUploaded (name f))])];
          (split; [reflexivity|]); (split; [discriminate|]); (split;
            [cbn [trace app]; rewrite T, <- app_assoc; reflexivity
            |rewrite !forallb_app, Q; reflexivity]).
    + do 2 eexists. exists (added ++ [EvPrint MsgWaiting; EvPrint (MsgUploaded (name f))]).
      split; [reflexivity|]. split; [discriminate|]. split.
      * rewrite T, <- app_assoc. reflexivity.
      * rewrite forallb_app, Q. reflexivity.
Qed.

Lemma schedule_snoc (file_path : str) (n : nat) :
  schedule file_path (S n) ++ [EvSleep 5; EvUpload file_path]
  = schedule file_path (S (S n)).
Proof.
  induction n as [|n IH]; [reflexivity|].
  change (schedule file_path (S (S n)))
    with (EvUpload file_path :: EvSleep 5 :: schedule file_path (S n)) at 1.
  cbn [app]. rewrite IH. reflexivity.
Qed.

Lemma schedule_rev (file_path : str) (n : nat) :
  rev (schedule file_path n) = schedule file_path n.
Proof.
  destruct n as [|n]; [reflexivity|].
  induction n as [|n IH]; [reflexivity|].
  change (schedule file_path (S (S n)))
    with (EvUpload file_path :: EvSleep 5 :: schedule file_path (S n)) at 1.
  cbn [rev]. rewrite IH, <- app_assoc. apply schedule_snoc.
Qed.

Lemma schedule_uploads (file_path : str) (n : nat) :
  count is_upload (schedule file_path n) = n.
Proof.
  destruct n as [|n]; [reflexivity|].
  induction n as [|n IH]; [reflexivity|].
  change (schedule file_path (S (S n)))
    with (EvUpload file_path :: EvSleep 5 :: schedule file_path (S n)).
  unfold count in *. cbn [filter is_upload List.length]. now rewrite IH.
Qed.

Lemma count_app (q : event -> bool) (a b : list event) :
  count q (a ++ b) = (count q a + count q b)%nat.
Proof. unfold count. now rewrite filter_app, length_app. Qed.

Lemma count_cons (q : event -> bool) (e : event) (l : list event) :
  count q (e :: l) = ((if q e then 1 else 0) + count q l)%nat.
Proof. unfold count. simpl. destruct (q e); reflexivity. Qed.

Lemma count_quiet (q : event -> bool) (added : list event) :
  (forall e, quiet e = true -> q e = false) ->
  forallb quiet added = true -> count q added = O.
Proof. intros Hq H. unfold count. now rewrite (quiet_filter q added Hq H). Qed.

(** The loop of the attempts, from any attempt number: it returns, and the
    trace tells how many attempts were made and how many failed. *)
Lemma upload_loop_invariant (poll_fuel : nat) (file_path : str) (retries : nat) :
  (enough_fuel <= poll_fuel)%nat ->
  forall (fuel attempt : nat) (st : state),
    (attempt < retries)%nat -> (retries - attempt <= fuel)%nat ->
    exists v st1 n e,
      upload_loop fuel poll_fuel file_path retries 5 attempt w st = (Val v, st1)
      /\ filter is_schedule (trace st1)
         = schedule file_path n ++ filter is_schedule (trace st)
      /\ count is_error_report (trace st1)
         = (e + count is_error_report (trace st))%nat
      /\ count is_failure_report (trace st1)
         = ((if (attempt + e =? retries)%nat then 1 else 0)
            + count is_failure_report (trace st))%nat
      /\ n = (if (attempt + e =? retries)%nat then e else S e)
      /\ (attempt + e <= retries)%nat /\ (1 <= n)%nat
      /\ ((attempt + e)%nat = retries -> v = None).
Proof.
  intros Hpf. induction fuel as [|fuel IH]; intros attempt st Ha Hf; [lia|].
  cbn [upload_loop]. apply Nat.ltb_lt in Ha as Ha'. rewrite Ha'.
  unfold try_except.
  destruct (upload_attempt_frame poll_fuel file_path st Hpf)
    as (r & st1 & added & E & D & T & Q).
  rewrite E.
  pose proof (quiet_filter is_schedule added quiet_not_schedule Q) as Fs.
  pose proof (count_quiet is_error_report added quiet_not_error Q) as Fe.
  pose proof (count_quiet is_failure_report added quiet_not_failure Q) as Ff.
  destruct r as [v|e|]; [| |contradiction].
  - exists v, st1, 1%nat, O. rewrite Nat.add_0_r.
    assert ((attempt =? retries)%nat = false) as -> by (apply Nat.eqb_neq; lia).
    split; [reflexivity|]. rewrite T.
    rewrite filter_app, Fs, !count_app, !count_cons, Fe, Ff.
    cbn [is_error_report is_failure_report is_print_of].
    repeat split; try reflexivity; lia.
  - cbv [bind print]. cbn [trace now].
    destruct (attempt + 1 <? retries)%nat eqn:Hn.
    + apply Nat.ltb_lt in Hn.
      cbv [time_sleep effect]. cbn [trace now].
      match goal with |- context [upload_loop fuel poll_fuel file_path retries 5 _ w ?s] =>
        destruct (IH (attempt + 1)%nat s Hn ltac:(lia))
          as (v & st2 & n & e' & E2 & S2 & C2 & F2 & N2 & L2 & P2 & V2)
      end.
      rewrite E2. cbn [trace] in S2, C2, F2.
      exists v, st2, (S n), (S e').
      replace (attempt + S e')%nat with (attempt + 1 + e')%nat by lia.
      split; [reflexivity|]. rewrite T in S2, C2, F2.
      split.
      { rewrite S2. cbn [filter is_schedule is_upload is_sleep_of orb Z.eqb Pos.eqb].
        rewrite filter_app, Fs. cbn [app filter is_schedule is_upload orb].
        destruct n as [|n]; [lia|].
        rewrite <- schedule_snoc, <- app_assoc. reflexivity. }
      split.
      { rewrite C2, !count_cons, count_app, !count_cons, Fe.
        cbn [is_error_report is_print_of is_upload_error]. lia. }
      split.
      { rewrite F2, !count_cons, count_app, !count_cons, Ff.
        cbn [is_failure_report is_print_of is_upload_failed]. lia. }
      split.
      { rewrite N2. destruct (attempt + 1 + e' =? retries)%nat; reflexivity. }
      repeat split; try lia. exact V2.
    + apply Nat.ltb_ge in Hn. cbv [ret].
      exists None. eexists. exists 1%nat, 1%nat.
      assert ((attempt + 1 =? retries)%nat = true) as -> by (apply Nat.eqb_eq; lia).
      split; [reflexivity|]. cbn [trace]. rewrite T.
      split.
      { cbn [filter is_schedule is_upload is_sleep_of orb].
        rewrite filter_app, Fs. reflexivity. }
      split.
      { rewrite !count_cons, count_app, !count_cons, Fe.
        cbn [is_error_report is_print_of is_upload_error]. lia. }
      split.
      { rewrite !count_cons, count_app, !count_cons, Ff.
        cbn [is_failure_report is_print_of is_upload_failed]. lia. }
      repeat split; lia.
Qed.

(** A file that stays in PROCESSING: the loop ends in the time-out branch,
    with one delete call, and returns [None] whether the delete call
    succeeds or raises. *)
Lemma wait_for_processing_times_out (fuel : nat) (start : Z) :
  forall (f : File) (st : state),
    (1 <= fuel)%nat ->
    (seconds 300 < now st - start + seconds 15 * Z.of_nat (fuel - 1))%Z ->
    state_name f = lit "PROCESSING" ->
    (forall k, exists g,
        get_file w k = Ok g /\ name g = name f /\ state_name g = lit "PROCESSING") ->
    exists st1 added,
      wait_for_processing fuel 300 start f w st = (Val (Returned None), st1)
      /\ trace st1 =
           timeout_report (name f) (delete_file w (count is_delete (trace st)))
           :: EvDeleteFile (name f) :: EvPrint MsgTimedOut :: added ++ trace st
      /\ filter is_delete added = []
      /\ forallb quiet added = true
      /\ (seconds 300 < now st1 - start)%Z.
Proof.
  induction fuel as [|fuel IH]; intros f st Hf Ht Hs Hg; [lia|].
  cbn [wait_for_processing].
  apply eqb_eq in Hs as Hs'. rewrite Hs'.
  cbv [bind time_time]. cbn [now].
  destruct (now st - start >? seconds 300)%Z eqn:Hto.
  - rewrite Z.gtb_ltb in Hto. apply Z.ltb_lt in Hto.
    cbv [print try_except genai_delete_file effect bind ret]. cbn [trace now].
    rewrite count_cons. cbn [is_delete Nat.add].
    destruct (delete_file w _); eexists; exists [];
      (split; [reflexivity|]); (split; [reflexivity|]);
      (split; [reflexivity|]); (split; [reflexivity|]); cbn [now]; lia.
  - rewrite Z.gtb_ltb in Hto. apply Z.ltb_ge in Hto.
    cbv [time_sleep genai_get_file effect print]. cbn [trace now].
    rewrite count_cons. cbn [is_get_file Nat.add].
    destruct (Hg (count is_get_file (trace st))) as (g & -> & Gn & Gs).
    match goal with |- context [wait_for_processing fuel 300 start g w ?s] =>
      destruct (IH g s) as (st1 & added & E & T & Fd & Q & B)
    end.
    + unfold seconds in *. lia.
    + cbn [now]. unfold seconds in *. lia.
    + exact Gs.
    + intros k. destruct (Hg k) as (g' & A1 & A2 & A3).
      exists g'. rewrite Gn. auto.
    + rewrite E. exists st1.
      exists (added ++ [EvPrint (MsgCurrentState (state_name g)); EvGetFile (name f);
                        EvSleep 15]).
      split; [reflexivity|]. split.
      * rewrite T. cbn [trace]. rewrite !count_cons. cbn [is_delete Nat.add].
        rewrite Gn, <- app_assoc. reflexivity.
      * split; [now rewrite filter_app, Fd|].
        split; [now rewrite forallb_app, Q|exact B].
Qed.

(** An attempt whose upload call is accepted and whose file stays in
    PROCESSING ends in the time-out branch. *)
Lemma upload_attempt_times_out (fuel : nat) (file_path : str) (st : state) (h : File) :
  (enough_fuel <= fuel)%nat ->
  upload_file w (count is_upload (trace st)) = Ok h ->
  state_name h = lit "PROCESSING" ->
  (forall k, exists g,
      get_file w k = Ok g /\ name g = name h /\ state_name g = lit "PROCESSING") ->
  exists st1 added,
    upload_attempt fuel file_path w st = (Val None, st1)
    /\ trace st1 =
         timeout_report (name h) (delete_file w (count is_delete (trace st)))
         :: EvDeleteFile (name h) :: EvPrint MsgTimedOut
         :: added ++ EvUpload file_path :: trace st
    /\ filter is_delete added = []
    /\ forallb quiet added = true
    /\ (seconds 300 < now st1 - now st)%Z.
Proof.
  intros Hf Hu Hs Hg. unfold enough_fuel in Hf.
  cbv [upload_attempt bind genai_upload_file effect print time_time].
  cbn [trace now]. rewrite Hu.
  match goal with |- context [wait_for_processing fuel 300 ?t h w ?s] =>
    destruct (wait_for_processing_times_out fuel t h s)
      as (st1 & added & E & T & Fd & Q & B)
  end; try assumption; try lia.
  { cbn [now]. unfold seconds. lia. }
  rewrite E. cbv [ret]. cbn [trace now] in T, B.
  rewrite !count_cons in T. cbn [is_delete Nat.add] in T.
  exists st1, (added ++ [EvPrint MsgWaiting; EvPrint (MsgUploaded (name h))]).
  split; [reflexivity|]. split; [rewrite T, <- app_assoc; reflexivity|].
  split; [now rewrite filter_app, Fd|].
  split; [now rewrite forallb_app, Q|lia].
Qed.

(** The loop of the attempts when [k] upload calls raise and the next one
    is accepted, the file staying in PROCESSING. *)
Lemma upload_loop_times_out (poll_fuel : nat) (file_path : str) (retries : nat)
    (h : File) :
  (enough_fuel <= poll_fuel)%nat ->
  state_name h = lit "PROCESSING" ->
  (forall k, exists g,
      get_file w k = Ok g /\ name g = name h /\ state_name g = lit "PROCESSING") ->
  forall (k fuel attempt : nat) (st : state),
    (attempt + k < retries)%nat -> (k < fuel)%nat ->
    (forall j, (j < k)%nat ->
               exists e, upload_file w (count is_upload (trace st) + j) = Err e) ->
    upload_file w (count is_upload (trace st) + k) = Ok h ->
    exists st1 added,
      upload_loop fuel poll_fuel file_path retries 5 attempt w st = (Val None, st1)
      /\ trace st1 =
           timeout_report (name h) (delete_file w (count is_delete (trace st)))
           :: EvDeleteFile (name h) :: EvPrint MsgTimedOut :: added ++ trace st
      /\ filter is_delete added = []
      /\ count is_upload added = S k
      /\ (seconds 300 < now st1 - now st)%Z.
Proof.
  intros Hpf Hs Hg. induction k as [|k IH]; intros fuel attempt st Ha Hk He Hu.
  - destruct fuel as [|fuel]; [lia|]. cbn [upload_loop].
    assert ((attempt <? retries)%nat = true) as -> by (apply Nat.ltb_lt; lia).
    rewrite Nat.add_0_r in Hu. unfold try_except.
    destruct (upload_attempt_times_out poll_fuel file_path st h Hpf Hu Hs Hg)
      as (st1 & added & E & T & Fd & Q & B).
    rewrite E. exists st1, (added ++ [EvUpload file_path]).
    split; [reflexivity|]. split; [rewrite T, <- app_assoc; reflexivity|].
    split; [now rewrite filter_app, Fd|]. split; [|exact B].
    rewrite count_app, (count_quiet is_upload added quiet_not_upload Q). reflexivity.
  - destruct fuel as [|fuel]; [lia|]. cbn [upload_loop].
    assert ((attempt <? retries)%nat = true) as -> by (apply Nat.ltb_lt; lia).
    destruct (He 0%nat ltac:(lia)) as (e & He0). rewrite Nat.add_0_r in He0.
    cbv [try_except upload_attempt bind genai_upload_file effect print time_sleep].
    cbn [trace now]. rewrite He0.
    assert ((attempt + 1 <? retries)%nat = true) as -> by (apply Nat.ltb_lt; lia).
    match goal with |- context [upload_loop fuel poll_fuel file_path retries 5 _ w ?s] =>
      destruct (IH fuel (attempt + 1)%nat s) as (st1 & added & E & T & Fd & U & B)
    end.
    + lia.
    + lia.
    + intros j Hj. cbn [trace]. rewrite !count_cons. cbn [is_upload Nat.add].
      destruct (He (S j) ltac:(lia)) as (e' & He').
      exists e'. rewrite <- He'. f_equal. lia.
    + cbn [trace]. rewrite !count_cons. cbn [is_upload Nat.add].
      rewrite <- Hu. f_equal. lia.
    + rewrite E. cbn [trace now] in T, B.
      rewrite !count_cons in T. cbn [is_delete Nat.add] in T.
      exists st1, (added ++ [EvSleep 5; EvPrint (MsgRetrying 5);
                             EvPrint (MsgUploadError (attempt + 1) retries e);
                             EvUpload file_path]).
      split; [reflexivity|]. split; [rewrite T, <- app_assoc; reflexivity|].
      split; [now rewrite filter_app, Fd|]. split; [|unfold seconds in *; lia].
      rewrite count_app, U, !count_cons. cbn [is_upload]. unfold count. cbn. lia.
Qed.

End Upload.

(** ** The claims about the upload *)

(** C5: when an upload call is accepted (the first one, or a later one
    after upload calls that raised) and every state query answers
    PROCESSING, the upload operation runs into the 300 second time-out:
    it then issues exactly one delete call, for that file, and returns
    [None] after the time-out message; when the delete call raises, the
    warning is printed in place of the clean-up report and the operation
    still returns [None]. *)
Theorem C5_processing_timeout :
  forall (w : world) (file_path : str) (fuel : nat) (h : File) (k : nat),
    path_exists w file_path = true ->
    (enough_fuel <= fuel)%nat ->
    (k < 3)%nat ->
    (forall j, (j < k)%nat -> exists e, upload_file w j = Err e) ->
    upload_file w k = Ok h ->
    state_name h = lit "PROCESSING" ->
    (forall n, exists g,
        get_file w n = Ok g /\ name g = name h /\ state_name g = lit "PROCESSING") ->
    let r := run_M (upload_file_to_gemini fuel file_path) w in
    fst r = Val None
    /\ filter is_delete (final_trace r) = [EvDeleteFile (name h)]
    /\ count is_upload (final_trace r) = S k
    /\ (seconds 300 < now (snd r))%Z
    /\ exists earlier,
         final_trace r =
         timeout_report (name h) (delete_file w 0)
         :: EvDeleteFile (name h) :: EvPrint MsgTimedOut :: earlier.
Proof.
  intros w file_path fuel h k Hp Hf Hk He Hu Hs Hg.
  cbv [run_M upload_file_to_gemini upload_file_to_gemini_with bind print
       os_path_exists initial_state final_trace].
  rewrite Hp. cbn [negb trace now].
  match goal with |- context [upload_loop fuel fuel file_path 3 5 0 w ?s] =>
    destruct (upload_loop_times_out w fuel file_path 3 h Hf Hs Hg k fuel 0%nat s)
      as (st1 & added & E & T & Fd & U & B)
  end; try assumption; try (unfold enough_fuel in Hf; lia).
  rewrite E. cbn [fst snd]. cbn [trace now] in T, B.
  rewrite count_cons in T. cbn [is_delete] in T.
  split; [reflexivity|]. rewrite T. split.
  - destruct (delete_file w _); cbn [timeout_report];
      cbn [filter is_delete]; rewrite filter_app, Fd; reflexivity.
  - split.
    + destruct (delete_file w _); cbn [timeout_report];
        rewrite !count_cons, count_app, U, count_cons; cbn [is_upload];
        unfold count; cbn [filter List.length]; lia.
    + split; [lia|]. eexists. reflexivity.
Qed.

Lemma C5_processing_timeout_witness :
  let r := run_M (upload_file_to_gemini 22 (lit "scan.pdf")) stuck_world in
  fst r = Val None
  /\ filter is_delete (final_trace r) = [EvDeleteFile (lit "files/stuck")]
  /\ count is_upload (final_trace r) = 1%nat
  /\ (seconds 300 < now (snd r))%Z
  /\ exists earlier,
       final_trace r =
       EvPrint (MsgWarnDeleteTimedOut (lit "files/stuck")
                                      (Exception (lit "503 unavailable")))
       :: EvDeleteFile (lit "files/stuck") :: EvPrint MsgTimedOut :: earlier.
Proof.
  apply (C5_processing_timeout stuck_world (lit "scan.pdf") 22
           (file_in_state (lit "files/stuck") (lit "PROCESSING")) 0).
  - reflexivity.
  - unfold enough_fuel. lia.
  - lia.
  - intros j Hj. lia.
  - reflexivity.
  - reflexivity.
  - intros n. exists (file_in_state (lit "files/stuck") (lit "PROCESSING")).
    repeat split; reflexivity.
Defined.

Section Retries.

Variables (w : world) (file_path : str) (fuel : nat).

Hypothesis file_exists : path_exists w file_path = true.
Hypothesis fuel_enough : (enough_fuel <= fuel)%nat.

Let r := run_M (upload_file_to_gemini fuel file_path) w.

Lemma uploads_in_schedule (tr : list event) :
  count is_upload tr = count is_upload (filter is_schedule tr).
Proof.
  induction tr as [|e tr IH]; [reflexivity|].
  cbn [filter]. unfold is_schedule at 1.
  destruct (is_upload e) eqn:U; cbn [orb].
  - rewrite !count_cons, U, IH. reflexivity.
  - destruct (is_sleep_of 5 e); rewrite !count_cons, ?U, IH; reflexivity.
Qed.

(** The run of the upload operation in terms of the loop invariant. *)
Lemma upload_run_summary :
  exists v n e,
    fst r = Val v
    /\ filter is_schedule (final_trace r) = schedule file_path n
    /\ count is_error_report (final_trace r) = e
    /\ count is_failure_report (final_trace r) = (if (e =? 3)%nat then 1 else 0)%nat
    /\ n = (if (e =? 3)%nat then e else S e)
    /\ (e <= 3)%nat /\ (1 <= n)%nat
    /\ (e = 3%nat -> v = None).
Proof.
  subst r.
  cbv [run_M upload_file_to_gemini upload_file_to_gemini_with bind print
       os_path_exists initial_state final_trace].
  rewrite file_exists. cbn [negb trace now].
  match goal with |- context [upload_loop fuel fuel file_path 3 5 0 w ?s] =>
    destruct (upload_loop_invariant w fuel file_path 3 fuel_enough fuel 0%nat s)
      as (v & st1 & n & e & E & S1 & C1 & F1 & N1 & L1 & P1 & V1)
  end; [lia|unfold enough_fuel in fuel_enough; lia|].
  rewrite E. cbn [fst snd]. cbn [trace] in S1, C1, F1.
  exists v, n, e. cbn [Nat.add] in *.
  rewrite S1, C1, F1. cbn [filter is_schedule is_upload is_sleep_of orb].
  rewrite !count_cons.
  cbn [is_error_report is_failure_report is_print_of is_upload_error is_upload_failed].
  rewrite app_nil_r. unfold count. cbn [filter List.length].
  repeat split; try assumption; lia.
Qed.

(** Two upload calls raise and the third gives an active file. *)
Lemma two_failures_then_active (e0 e1 : exn) (h : File) :
  upload_file w 0 = Err e0 -> upload_file w 1 = Err e1 ->
  upload_file w 2 = Ok h -> state_name h = lit "ACTIVE" ->
  fst r = Val (Some h)
  /\ filter is_schedule (history (snd r)) = schedule file_path 3.
Proof.
  intros H0 H1 H2 Hs. subst r. unfold enough_fuel in fuel_enough.
  destruct fuel as [|[|[|n]]]; try lia.
  cbv [run_M upload_file_to_gemini upload_file_to_gemini_with bind print
       os_path_exists initial_state history].
  rewrite file_exists. cbn [negb trace now upload_loop Nat.ltb Nat.leb Nat.add].
  cbv [try_except upload_attempt bind genai_upload_file effect print time_time
       time_sleep ret].
  cbn [trace now count filter is_upload List.length].
  rewrite H0. cbn [trace now count filter is_upload List.length Nat.ltb Nat.leb].
  rewrite H1. cbn [trace now count filter is_upload List.length Nat.ltb Nat.leb].
  rewrite H2. cbn [wait_for_processing]. rewrite Hs.
  change (Str.eqb (lit "ACTIVE") (lit "PROCESSING")) with false.
  cbv [ret]. rewrite Hs.
  change (Str.eqb (lit "ACTIVE") (lit "ACTIVE")) with true.
  cbn [fst snd trace]. split; reflexivity.
Qed.

End Retries.

(** C4: the upload operation makes at most 3 upload attempts, with a sleep
    of the 5 second delay between two attempts and nowhere else; after an
    attempt that failed it makes another one unless that was the third, so
    it gives up on upload errors only when three attempts have failed, and
    then it returns [None]; when two upload calls fail and the third gives
    an active file, it returns that file after exactly 3 attempts. *)
Theorem C4_upload_retries :
  forall (w : world) (file_path : str) (fuel : nat),
    path_exists w file_path = true ->
    (enough_fuel <= fuel)%nat ->
    let r := run_M (upload_file_to_gemini fuel file_path) w in
    exists v n e,
      fst r = Val v
      /\ filter is_schedule (history (snd r)) = schedule file_path n
      /\ count is_upload (final_trace r) = n
      /\ (1 <= n <= 3)%nat
      /\ count is_error_report (final_trace r) = e
      /\ n = (if (e =? 3)%nat then 3%nat else S e)
      /\ count is_failure_report (final_trace r) = (if (e =? 3)%nat then 1 else 0)%nat
      /\ (e = 3%nat -> v = None)
      /\ (forall e0 e1 h,
            upload_file w 0 = Err e0 -> upload_file w 1 = Err e1 ->
            upload_file w 2 = Ok h -> state_name h = lit "ACTIVE" ->
            v = Some h /\ n = 3%nat /\ e = 2%nat).
Proof.
  intros w file_path fuel Hp Hf. cbv zeta.
  destruct (upload_run_summary w file_path fuel Hp Hf)
    as (v & n & e & V & S1 & C1 & F1 & N1 & L1 & P1 & V1).
  exists v, n, e.
  assert (filter is_schedule
            (history (snd (run_M (upload_file_to_gemini fuel file_path) w)))
          = schedule file_path n) as Hh.
  { unfold history. unfold final_trace in S1.
    now rewrite filter_rev, S1, schedule_rev. }
  assert (n = if (e =? 3)%nat then 3%nat else S e) as N2.
  { rewrite N1. destruct (e =? 3)%nat eqn:E3; [|reflexivity].
    now apply Nat.eqb_eq in E3. }
  split; [exact V|]. split; [exact Hh|]. split.
  { now rewrite uploads_in_schedule, S1, schedule_uploads. }
  split; [rewrite N2; destruct (e =? 3)%nat eqn:E3; [lia|apply Nat.eqb_neq in E3; lia]|].
  split; [exact C1|]. split; [exact N2|]. split; [exact F1|]. split; [exact V1|].
  intros e0 e1 h H0 H1 H2 Hs.
  destruct (two_failures_then_active w file_path fuel Hp Hf e0 e1 h H0 H1 H2 Hs)
    as [A B].
  rewrite V in A. inversion A; subst v.
  rewrite Hh in B.
  assert (n = 3%nat) as N3.
  { rewrite <- (schedule_uploads file_path n), B. reflexivity. }
  split; [reflexivity|]. split; [exact N3|].
  destruct (e =? 3)%nat eqn:E3; [|lia].
  apply Nat.eqb_eq in E3. specialize (V1 E3). discriminate V1.
Qed.

Lemma C4_upload_retries_witness :
  let r := run_M (upload_file_to_gemini 22 (lit "scan.pdf")) flaky_world in
  exists v n e,
    fst r = Val v
    /\ filter is_schedule (history (snd r)) = schedule (lit "scan.pdf") n
    /\ count is_upload (final_trace r) = n
    /\ (1 <= n <= 3)%nat
    /\ count is_error_report (final_trace r) = e
    /\ n = (if (e =? 3)%nat then 3%nat else S e)
    /\ count is_failure_report (final_trace r) = (if (e =? 3)%nat then 1 else 0)%nat
    /\ (e = 3%nat -> v = None)
    /\ (forall e0 e1 h,
          upload_file flaky_world 0 = Err e0 -> upload_file flaky_world 1 = Err e1 ->
          upload_file flaky_world 2 = Ok h -> state_name h = lit "ACTIVE" ->
          v = Some h /\ n = 3%nat /\ e = 2%nat).
Proof.
  apply (C4_upload_retries flaky_world (lit "scan.pdf") 22).
  - reflexivity.
  - unfold enough_fuel. lia.
Defined.

(** ** The uploaded file and its deletion *)

Lemma count_actions (q : event -> bool) (tr : list event) :
  (forall m, q (EvPrint m) = false) -> count q (actions tr) = count q tr.
Proof.
  intros Hq. induction tr as [|e tr IH]; [reflexivity|].
  unfold actions in *. cbn [filter].
  destruct e; cbn [is_action]; rewrite ?count_cons, ?IH, ?Hq; reflexivity.
Qed.

(** The analysis issues one delete call for the file it was given, whatever
    the generation and the parsing do. *)
Lemma analyze_document_deletes_once (f : File) (mode language : str)
    (w : world) (st : state) :
  truthy (name f) = true ->
  count is_delete (final_trace (analyze_document f mode language w st))
  = S (count is_delete (trace st))
  /\ count (is_delete_of (name f))
           (final_trace (analyze_document f mode language w st))
     = S (count (is_delete_of (name f)) (trace st)).
Proof.
  intros Hn.
  destruct (analyze_document_run w st f mode language) as (st1 & E & A).
  rewrite E. unfold final_trace. cbn [snd]. rewrite Hn in A. cbn [app] in A.
  rewrite <- (count_actions is_delete (trace st1)) by reflexivity.
  rewrite <- (count_actions (is_delete_of (name f)) (trace st1)) by reflexivity.
  rewrite A, !count_cons, !count_actions by reflexivity.
  cbn [is_delete is_delete_of].
  assert (Str.eqb (name f) (name f) = true) as -> by now apply eqb_eq.
  split; reflexivity.
Qed.

(** C1, at a run where the claim fails: the first upload succeeds, the
    state query raises while the file is being processed, and the script
    uploads again; the second file is deleted once by the analysis, the
    first one is never deleted although the script runs to its end. *)
Theorem C1_poll_error_leaves_upload_undeleted :
  let r := run_M (main 22 (lit "scan.pdf") (lit "scan_full_english.txt")
                       (lit "scan") (lit "text") (lit "full") (lit "english"))
                 poll_error_world in
  fst r = Val tt
  /\ uploaded_names (history (snd r)) = [lit "files/first"; lit "files/second"]
  /\ filter is_delete (history (snd r)) = [EvDeleteFile (lit "files/second")]
  /\ count (is_delete_of (lit "files/first")) (final_trace r) = 0%nat.
Proof.
  vm_compute. repeat split.
Qed.

(** * Further properties of the module *)

(** ** The upload: what a run can contain *)

Lemma count_nil (q : event -> bool) : count q [] = O.
Proof. reflexivity. Qed.

Ltac count_events :=
  repeat (rewrite count_cons || rewrite count_app || rewrite count_nil);
  cbn [is_upload is_get_file is_delete is_sleep_of is_output is_generate
       is_write is_makedirs orb Z.eqb Pos.eqb].

Section UploadProfile.

Variable w : world.

(** The polling loop: every state query follows a sleep of 15 seconds, the
    queries fit in the time-out, a delete call is only made on the way to
    [return None], and a file that leaves the loop is not PROCESSING. *)
Lemma wait_for_processing_profile (fuel : nat) (start : Z) :
  forall (f : File) (st : state),
    (1 <= fuel)%nat ->
    (seconds 300 < now st - start + seconds 15 * Z.of_nat (fuel - 1))%Z ->
    exists r st1 added,
      wait_for_processing fuel 300 start f w st = (r, st1)
      /\ trace st1 = added ++ trace st
      /\ forallb quiet added = true
      /\ count is_output added = O
      /\ count is_get_file added = count (is_sleep_of 15) added
      /\ (count is_get_file added = O
          \/ (seconds 15 * Z.of_nat (count is_get_file added) + (now st - start)
              <= seconds 315)%Z)
      /\ (count is_delete added <= 1)%nat
      /\ match r with
         | Val (Returned v) => v = None
         | Val (Fell_through g) =>
             Str.eqb (state_name g) (lit "PROCESSING") = false
             /\ count is_delete added = O
         | Raise _ => count is_delete added = O
         | Diverge => False
         end.
Proof.
  induction fuel as [|fuel IH]; intros f st Hf Ht; [lia|].
  cbn [wait_for_processing].
  destruct (Str.eqb (state_name f) (lit "PROCESSING")) eqn:Hs.
  2:{ do 2 eexists. exists []. cbv [ret].
      repeat split; try reflexivity; try (left; reflexivity); try exact Hs.
      unfold count; simpl; lia. }
  cbv [bind time_time]. cbn [now].
  destruct (now st - start >? seconds 300)%Z eqn:Hto.
  - cbv [print try_except genai_delete_file effect bind ret]. cbn [trace now].
    destruct (delete_file w _);
      do 2 eexists; eexists [_; _; _]; (split; [reflexivity|]);
      (split; [reflexivity|]); (split; [reflexivity|]); (split; [reflexivity|]);
      (split; [reflexivity|]);
      (split; [left; reflexivity|]); split; [unfold count; simpl; lia|reflexivity
                                            |unfold count; simpl; lia|reflexivity].
  - rewrite Z.gtb_ltb in Hto. apply Z.ltb_ge in Hto.
    cbv [time_sleep genai_get_file effect print]. cbn [trace now].
    destruct (get_file w _) as [g|e].
    + match goal with |- context [wait_for_processing fuel 300 start g w ?s] =>
        destruct (IH g s) as (r & st1 & added & E & T & Q & O & P & B & D & R)
      end.
      * unfold seconds in *. lia.
      * cbn [now]. unfold seconds in *. lia.
      * rewrite E. cbn [now] in B.
        exists r, st1, (added ++ [EvPrint (MsgCurrentState (state_name g));
                                  EvGetFile (name f); EvSleep 15]).
        split; [reflexivity|].
        split; [rewrite T; cbn [trace]; now rewrite <- app_assoc|].
        split; [now rewrite forallb_app, Q|].
        rewrite !count_app, !count_cons.
        cbn [is_get_file is_sleep_of is_delete Z.eqb Pos.eqb
             is_output is_generate is_write is_makedirs orb].
        rewrite !count_nil.
        split; [lia|]. split; [lia|]. split.
        { right. unfold seconds in *. destruct B as [B|B]; [rewrite B|]; lia. }
        split; [lia|].
        destruct r as [[v|g']|e|]; auto.
        -- destruct R as [R1 R2]. split; [exact R1|lia].
        -- lia.
    + do 2 eexists; eexists [_; _]; (split; [reflexivity|]);
        (split; [reflexivity|]); (split; [reflexivity|]); (split; [reflexivity|]);
        (split; [reflexivity|]).
      split; [right; rewrite !count_cons, count_nil; cbn [is_get_file];
              unfold seconds in *; lia|].
      split; [unfold count; simpl; lia|reflexivity].
Qed.

Lemma quiet_not_delay (e : event) : quiet e = true -> is_sleep_of 5 e = false.
Proof.
  intros H. apply quiet_not_schedule in H. unfold is_schedule in H.
  now apply orb_false_iff in H.
Qed.

(** One attempt: one upload call, at most 21 state queries, at most one
    delete call, and a file is only returned in state ACTIVE and undeleted. *)
Lemma upload_attempt_profile (fuel : nat) (file_path : str) (st : state) :
  (enough_fuel <= fuel)%nat ->
  exists r st1 added,
    upload_attempt fuel file_path w st = (r, st1)
    /\ trace st1 = added ++ trace st
    /\ count is_upload added = 1%nat
    /\ count (is_sleep_of 5) added = O
    /\ count is_output added = O
    /\ count is_get_file added = count (is_sleep_of 15) added
    /\ (count is_get_file added <= 21)%nat
    /\ (count is_delete added <= 1)%nat
    /\ match r with
       | Val (Some f) =>
           Str.eqb (state_name f) (lit "ACTIVE") = true
           /\ count is_delete added = O
       | Val None => True
       | Raise _ => count is_delete added = O
       | Diverge => False
       end.
Proof.
  intros Hfuel. unfold enough_fuel in Hfuel.
  cbv [upload_attempt bind genai_upload_file effect print time_time].
  cbn [trace now].
  destruct (upload_file w _) as [f|e].
  2:{ do 2 eexists. exists [EvUpload file_path].
      split; [reflexivity|]. split; [reflexivity|]. count_events.
      repeat split; lia. }
  match goal with |- context [wait_for_processing fuel 300 ?t f w ?s] =>
    destruct (wait_for_processing_profile fuel t f s)
      as (r & st1 & added & E & T & Q & O & P & B & D & R)
  end.
  { lia. }
  { cbn [now]. unfold seconds. lia. }
  rewrite E. cbn [trace now] in T, B.
  pose proof (count_quiet is_upload added quiet_not_upload Q) as Qu.
  pose proof (count_quiet (is_sleep_of 5) added quiet_not_delay Q) as Qd.
  assert (count is_get_file added <= 21)%nat as B21.
  { destruct B as [B|B]; [lia|]. unfold seconds in B. lia. }
  destruct r as [[v|g]|e|]; [| | |contradiction].
  - subst v. cbv [ret]. do 2 eexists.
    exists (added ++ [EvPrint MsgWaiting; EvPrint (MsgUploaded (name f));
                      EvUpload file_path]).
    split; [reflexivity|]. split; [rewrite T, <- app_assoc; reflexivity|].
    count_events. repeat split; lia.
  - destruct R as [R1 R2].
    destruct (Str.eqb (state_name g) (lit "ACTIVE")) eqn:Ha.
    + cbv [ret]. do 2 eexists.
      exists (EvPrint MsgActive
              :: added ++ [EvPrint MsgWaiting; EvPrint (MsgUploaded (name f));
                           EvUpload file_path]).
      split; [reflexivity|].
      split; [cbn [trace app]; rewrite T, <- app_assoc; reflexivity|].
      count_events. repeat split; try lia. exact Ha.
    + cbv [try_except genai_delete_file effect bind print ret]. cbn [trace now].
      destruct (negb (Str.eqb (state_name g) (lit "DELETED")));
        [destruct (delete_file w _)|]; cbn [trace now];
        do 2 eexists;
        [exists ([EvPrint (MsgCleanedState (state_name g) (name g)); EvDeleteFile (name g);
                  EvPrint (MsgBadState (state_name g))]
                 ++ added ++ [EvPrint MsgWaiting; EvPrint (MsgUploaded (name f));
                              EvUpload file_path])
        |eexists ([_; EvDeleteFile (name g); EvPrint (MsgBadState (state_name g))]
                 ++ added ++ [EvPrint MsgWaiting; EvPrint (MsgUploaded (name f));
                              EvUpload file_path])
        |exists ([EvPrint (MsgBadState (state_name g))]
                 ++ added ++ [EvPrint MsgWaiting; EvPrint (MsgUploaded (name f));
                              EvUpload file_path])];
        (split; [reflexivity|]);
        (split; [cbn [trace app]; rewrite T, <- app_assoc; reflexivity|]);
        count_events; repeat split; lia.
  - do 2 eexists.
    exists (added ++ [EvPrint MsgWaiting; EvPrint (MsgUploaded (name f));
                      EvUpload file_path]).
    split; [reflexivity|]. split; [rewrite T, <- app_assoc; reflexivity|].
    count_events. repeat split; lia.
Qed.

(** The loop of the attempts keeps the bounds of the attempts. *)
Lemma upload_loop_profile (poll_fuel : nat) (file_path : str) (retries : nat) :
  (enough_fuel <= poll_fuel)%nat ->
  forall (fuel attempt : nat) (st : state),
    (retries - attempt <= fuel)%nat ->
    exists v st1 added,
      upload_loop fuel poll_fuel file_path retries 5 attempt w st = (Val v, st1)
      /\ trace st1 = added ++ trace st
      /\ (count is_upload added <= retries - attempt)%nat
      /\ count is_output added = O
      /\ count is_get_file added = count (is_sleep_of 15) added
      /\ (count is_get_file added <= 21 * count is_upload added)%nat
      /\ (count is_delete added <= 1)%nat
      /\ match v with
         | Some f =>
             Str.eqb (state_name f) (lit "ACTIVE") = true
             /\ count is_delete added = O
         | None => True
         end.
Proof.
  intros Hpf. induction fuel as [|fuel IH]; intros attempt st Hf.
  - cbn [upload_loop].
    assert ((attempt <? retries)%nat = false) as -> by (apply Nat.ltb_ge; lia).
    do 2 eexists. exists []. cbv [ret]. count_events. repeat split; lia.
  - cbn [upload_loop]. destruct (attempt <? retries)%nat eqn:Ha.
    2:{ do 2 eexists. exists []. cbv [ret]. count_events. repeat split; lia. }
    apply Nat.ltb_lt in Ha. unfold try_except.
    destruct (upload_attempt_profile poll_fuel file_path st Hpf)
      as (r & st1 & added & E & T & U & S5 & O & P & B & D & R).
    rewrite E. destruct r as [v|e|]; [| |contradiction].
    + exists v, st1, added. split; [reflexivity|]. split; [exact T|].
      repeat split; try assumption; try lia.
    + cbv [bind print]. cbn [trace now].
      destruct (attempt + 1 <? retries)%nat eqn:Hn.
      * cbv [time_sleep effect]. cbn [trace now].
        match goal with |- context [upload_loop fuel poll_fuel file_path retries 5 _ w ?s] =>
          destruct (IH (attempt + 1)%nat s ltac:(lia))
            as (v & st2 & added2 & E2 & T2 & U2 & O2 & P2 & B2 & D2 & R2)
        end.
        rewrite E2. cbn [trace] in T2.
        exists v, st2,
          (added2 ++ [EvSleep 5; EvPrint (MsgRetrying 5);
                      EvPrint (MsgUploadError (attempt + 1) retries e)] ++ added).
        split; [reflexivity|].
        split; [rewrite T2, T; cbn [app]; rewrite <- app_assoc; reflexivity|].
        count_events. repeat split; try lia.
        destruct v; [|exact I]. destruct R2 as [R3 R4]. split; [exact R3|lia].
      * cbv [ret]. do 2 eexists.
        exists ([EvPrint MsgUploadFailed;
                 EvPrint (MsgUploadError (attempt + 1) retries e)] ++ added).
        split; [reflexivity|]. split; [cbn [trace app]; rewrite T; reflexivity|].
        count_events. repeat split; lia.
Qed.

End UploadProfile.

Section UploadRuns.

Variables (w : world) (file_path : str) (fuel : nat).

(** X1: Without the local file the upload operation returns [None] at once:
    two messages, no call to the service, no sleep. *)
Theorem upload_of_missing_file :
  path_exists w file_path = false ->
  run_M (upload_file_to_gemini fuel file_path) w
  = (Val None,
     {| now := 0;
        trace := [EvPrint (MsgFileNotFound file_path);
                  EvPrint (MsgUploading file_path)] |}).
Proof.
  intros H.
  cbv [run_M upload_file_to_gemini upload_file_to_gemini_with bind print
       os_path_exists initial_state ret].
  rewrite H. reflexivity.
Qed.

Lemma upload_run_profile :
  (enough_fuel <= fuel)%nat ->
  exists v st1,
    run_M (upload_file_to_gemini fuel file_path) w = (Val v, st1)
    /\ (count is_upload (trace st1) <= 3)%nat
    /\ count is_output (trace st1) = O
    /\ count is_get_file (trace st1) = count (is_sleep_of 15) (trace st1)
    /\ (count is_get_file (trace st1) <= 21 * count is_upload (trace st1))%nat
    /\ (count is_delete (trace st1) <= 1)%nat
    /\ match v with
       | Some f =>
           Str.eqb (state_name f) (lit "ACTIVE") = true
           /\ count is_delete (trace st1) = O
       | None => True
       end.
Proof.
  intros Hf.
  cbv [run_M upload_file_to_gemini upload_file_to_gemini_with bind print
       os_path_exists initial_state].
  destruct (path_exists w file_path); cbn [negb trace now].
  - match goal with |- context [upload_loop fuel fuel file_path 3 5 0 w ?s] =>
      destruct (upload_loop_profile w fuel file_path 3 Hf fuel 0%nat s)
        as (v & st1 & added & E & T & U & O & P & B & D & R)
    end; [unfold enough_fuel in Hf; lia|].
    rewrite E. exists v, st1. split; [reflexivity|]. rewrite T. cbn [trace].
    count_events. repeat split; try lia.
    destruct v; [|exact I]. destruct R as [R1 R2]. split; [exact R1|lia].
  - cbv [ret]. do 2 eexists. split; [reflexivity|]. cbn [trace].
    count_events. repeat split; lia.
Qed.

(** X2: The upload operation never raises; it issues at most one delete call;
    and when it returns a file, the file is in state ACTIVE and no delete
    call was issued during the upload. *)
Theorem upload_returns_active_file :
  (enough_fuel <= fuel)%nat ->
  let r := run_M (upload_file_to_gemini fuel file_path) w in
  exists v,
    fst r = Val v
    /\ (count is_delete (final_trace r) <= 1)%nat
    /\ match v with
       | Some f =>
           state_name f = lit "ACTIVE" /\ count is_delete (final_trace r) = O
       | None => True
       end.
Proof.
  intros Hf. cbv zeta.
  destruct (upload_run_profile Hf) as (v & st1 & E & U & O & P & B & D & R).
  rewrite E. exists v. unfold final_trace. cbn [fst snd].
  split; [reflexivity|]. split; [exact D|].
  destruct v; [|exact I]. destruct R as [R1 R2]. split; [|exact R2].
  now apply eqb_eq.
Qed.


(** X4: A file that the upload call gives in a state other than PROCESSING and
    ACTIVE is not polled and not uploaded again: the operation returns
    [None] after one delete call for it, or after none when the state is
    DELETED; an exception of that delete call does not come out. *)
Theorem upload_of_rejected_file (h : File) :
  path_exists w file_path = true ->
  (1 <= fuel)%nat ->
  upload_file w 0 = Ok h ->
  state_name h <> lit "PROCESSING" ->
  state_name h <> lit "ACTIVE" ->
  let r := run_M (upload_file_to_gemini fuel file_path) w in
  fst r = Val None
  /\ count is_upload (final_trace r) = 1%nat
  /\ count is_get_file (final_trace r) = O
  /\ filter is_delete (final_trace r)
     = if Str.eqb (state_name h) (lit "DELETED") then []
       else [EvDeleteFile (name h)].
Proof.
  intros Hp Hf Hu Hs Ha.
  assert (Str.eqb (state_name h) (lit "PROCESSING") = false) as Hs'
    by (apply not_true_is_false; intros E; apply eqb_eq in E; contradiction).
  assert (Str.eqb (state_name h) (lit "ACTIVE") = false) as Ha'
    by (apply not_true_is_false; intros E; apply eqb_eq in E; contradiction).
  destruct fuel as [|n]; [lia|].
  cbv [run_M upload_file_to_gemini upload_file_to_gemini_with bind print
       os_path_exists initial_state final_trace].
  rewrite Hp. cbn [negb trace now upload_loop Nat.ltb Nat.leb].
  cbv [try_except upload_attempt bind genai_upload_file effect print time_time].
  cbn [trace now count filter is_upload List.length].
  rewrite Hu. cbn [wait_for_processing]. rewrite Hs'. cbv [ret]. rewrite Ha'.
  cbv [genai_delete_file effect]. cbn [trace now].
  destruct (Str.eqb (state_name h) (lit "DELETED")); cbn [negb];
    [|destruct (delete_file w _)]; cbn [fst snd trace];
    repeat split; reflexivity.
Qed.

End UploadRuns.

Lemma upload_of_missing_file_witness :
  run_M (upload_file_to_gemini 22 (lit "scan.pdf")) empty_disk_world
  = (Val None,
     {| now := 0;
        trace := [EvPrint (MsgFileNotFound (lit "scan.pdf"));
                  EvPrint (MsgUploading (lit "scan.pdf"))] |}).
Proof.
  apply (upload_of_missing_file empty_disk_world (lit "scan.pdf") 22).
  reflexivity.
Defined.

Lemma upload_returns_active_file_witness :
  let r := run_M (upload_file_to_gemini 22 (lit "scan.pdf")) flaky_world in
  exists v,
    fst r = Val v
    /\ (count is_delete (final_trace r) <= 1)%nat
    /\ match v with
       | Some f =>
           state_name f = lit "ACTIVE" /\ count is_delete (final_trace r) = O
       | None => True
       end.
Proof.
  apply (upload_returns_active_file flaky_world (lit "scan.pdf") 22).
  unfold enough_fuel. lia.
Defined.


Lemma upload_of_rejected_file_witness :
  let r := run_M (upload_file_to_gemini 1 (lit "scan.pdf")) failed_world in
  fst r = Val None
  /\ count is_upload (final_trace r) = 1%nat
  /\ count is_get_file (final_trace r) = O
  /\ filter is_delete (final_trace r)
     = if Str.eqb (lit "FAILED") (lit "DELETED") then []
       else [EvDeleteFile (lit "files/bad")].
Proof.
  apply (upload_of_rejected_file failed_world (lit "scan.pdf") 1
           (file_in_state (lit "files/bad") (lit "FAILED"))).
  - reflexivity.
  - lia.
  - reflexivity.
  - intros H. vm_compute in H. discriminate H.
  - intros H. vm_compute in H. discriminate H.
Defined.

(** ** The output writers *)

Section Writers.

Variables (w : world) (st : state).

Lemma save_to_text_file_run (content output_path : str) :
  exists st1,
    save_to_text_file (Some content) output_path w st
    = (Val (snd (writer_actions w st output_path
                   (Some (EvWriteText output_path content)))),
       st1)
    /\ actions (trace st1)
       = fst (writer_actions w st output_path (Some (EvWriteText output_path content)))
         ++ actions (trace st).
Proof.
  unfold save_to_text_file, writer_actions.
  destruct (truthy (dirname output_path));
    cbv [bind print try_except os_makedirs write_text effect ret]; cbn [trace now].
  - rewrite !count_cons. cbn [is_makedirs is_write Nat.add].
    destruct (makedirs w _); cbn [succeeded trace now].
    + destruct (write_file w _); cbn [succeeded fst snd];
        eexists; split; reflexivity.
    + eexists; split; reflexivity.
  - rewrite !count_cons. cbn [is_write Nat.add].
    destruct (write_file w _); cbn [succeeded fst snd];
      eexists; split; reflexivity.
Qed.

Lemma save_to_word_file_run (content output_path title language : str) :
  exists st1,
    save_to_word_file (Some content) output_path title language w st
    = (Val (snd (writer_actions w st output_path
                   (docx_write output_path content title language))),
       st1)
    /\ actions (trace st1)
       = fst (writer_actions w st output_path
                (docx_write output_path content title language))
         ++ actions (trace st).
Proof.
  unfold save_to_word_file, writer_actions, docx_write.
  destruct (truthy (dirname output_path));
    cbv [bind print try_except os_makedirs of_result doc_save effect ret];
    cbn [trace now].
  - rewrite !count_cons. cbn [is_makedirs is_write Nat.add].
    destruct (makedirs w _); cbn [succeeded trace now].
    + destruct (word_document content title language) as [doc|e]; cbn [trace now].
      * destruct (write_file w _); cbn [succeeded fst snd];
          eexists; split; reflexivity.
      * eexists; split; reflexivity.
    + eexists; split; reflexivity.
  - destruct (word_document content title language) as [doc|e]; cbn [trace now].
    + rewrite !count_cons. cbn [is_write Nat.add].
      destruct (write_file w _); cbn [succeeded fst snd];
        eexists; split; reflexivity.
    + eexists; split; reflexivity.
Qed.

End Writers.

Lemma writer_actions_counts (w : world) (st : state) (output_path : str)
    (the_write : option event) :
  (forall ev, the_write = Some ev ->
              is_write ev = true /\ is_upload ev = false
              /\ is_generate ev = false /\ is_delete ev = false) ->
  count is_upload (fst (writer_actions w st output_path the_write)) = O
  /\ count is_generate (fst (writer_actions w st output_path the_write)) = O
  /\ count is_delete (fst (writer_actions w st output_path the_write)) = O
  /\ (count is_write (fst (writer_actions w st output_path the_write)) <= 1)%nat.
Proof.
  intros H. unfold writer_actions.
  destruct the_write as [ev|].
  - destruct (H ev eq_refl) as (W & U & G & D).
    destruct (truthy (dirname output_path));
      [destruct (succeeded (makedirs w _))|]; cbn [fst];
      rewrite ?count_cons, ?count_nil, ?W, ?U, ?G, ?D;
      cbn [is_upload is_generate is_delete is_write]; repeat split; lia.
  - destruct (truthy (dirname output_path));
      [destruct (succeeded (makedirs w _))|]; cbn [fst];
      rewrite ?count_cons, ?count_nil;
      cbn [is_upload is_generate is_delete is_write]; repeat split; lia.
Qed.

(** X5: [save_to_text_file] never raises (the actions of the trace are listed
    latest first). Without content it returns [False] and touches nothing. With content it creates the directory of the
    output path when the path has one, then writes the content unchanged
    to the path, and returns whether the write succeeded; when the
    directory cannot be created it returns [False] without writing. *)
Theorem save_to_text_file_outcome :
  forall (w : world) (st : state) (content : option str) (output_path : str),
    exists b st1,
      save_to_text_file content output_path w st = (Val b, st1)
      /\ match content with
         | None => b = false /\ actions (trace st1) = actions (trace st)
         | Some c =>
             let directory := dirname output_path in
             let steps := if truthy directory then [EvMakeDirs directory] else [] in
             if negb (truthy directory)
                || succeeded (makedirs w (count is_makedirs (trace st)))
             then b = succeeded (write_file w (count is_write (trace st)))
                  /\ actions (trace st1)
                     = EvWriteText output_path c :: steps ++ actions (trace st)
             else b = false /\ actions (trace st1) = steps ++ actions (trace st)
         end.
Proof.
  intros w st [c|] output_path.
  - destruct (save_to_text_file_run w st c output_path) as (st1 & E & A).
    rewrite E. do 2 eexists. split; [reflexivity|]. rewrite A.
    unfold writer_actions. cbv zeta.
    destruct (truthy (dirname output_path)); cbn [negb orb];
      [destruct (succeeded (makedirs w _))|]; cbn [fst snd]; split; reflexivity.
  - do 2 eexists. split; [reflexivity|]. split; reflexivity.
Qed.

(** X6: [save_to_word_file] never raises (the actions of the trace are listed
    latest first). Without content it returns [False] and touches nothing.
    With content it creates the directory of the output path when the path
    has one and then builds the document. When the document is built it
    saves exactly that document and returns whether saving succeeded. When
    the directory cannot be created, or building the document raises (a
    character that XML text cannot hold), it returns [False] without
    saving: a content with a form feed is not saved. *)
Theorem save_to_word_file_outcome :
  forall (w : world) (st : state) (content : option str)
         (output_path title language : str),
    (exists b st1,
       save_to_word_file content output_path title language w st = (Val b, st1)
       /\ match content with
          | None => b = false /\ actions (trace st1) = actions (trace st)
          | Some c =>
              let directory := dirname output_path in
              let steps := if truthy directory then [EvMakeDirs directory] else [] in
              if negb (truthy directory)
                 || succeeded (makedirs w (count is_makedirs (trace st)))
              then match word_document c title language with
                   | Ok doc =>
                       b = succeeded (write_file w (count is_write (trace st)))
                       /\ actions (trace st1)
                          = EvSaveDocx output_path doc :: steps ++ actions (trace st)
                   | Err _ =>
                       b = false /\ actions (trace st1) = steps ++ actions (trace st)
                   end
              else b = false /\ actions (trace st1) = steps ++ actions (trace st)
          end)
    /\ (let r := save_to_word_file (Some form_feed_content) (lit "out/a.docx")
                   (lit "Title") (lit "arabic") flaky_world initial_state in
        fst r = Val false
        /\ actions (history (snd r)) = [EvMakeDirs (lit "out")]).
Proof.
  intros w st content output_path title language.
  split; [|vm_compute; split; reflexivity].
  destruct content as [c|].
  - destruct (save_to_word_file_run w st c output_path title language)
      as (st1 & E & A).
    rewrite E. do 2 eexists. split; [reflexivity|]. rewrite A.
    unfold writer_actions, docx_write. cbv zeta.
    destruct (truthy (dirname output_path)); cbn [negb orb];
      [destruct (succeeded (makedirs w _))|];
      try destruct (word_document c title language);
      cbn [fst snd]; split; reflexivity.
  - do 2 eexists. split; [reflexivity|]. split; reflexivity.
Qed.

(** ** The script as a whole *)

Section Script.

Variables (w : world) (fuel : nat).
Variables (input_file output_path base_filename format mode language : str).

Lemma count_trace_actions (q : event -> bool) (tr : list event) :
  (forall m, q (EvPrint m) = false) -> count q tr = count q (actions tr).
Proof. intros H. symmetry. now apply count_actions. Qed.

(** What follows the upload in the script, from any state. *)
Lemma after_upload_run (f : File) (st : state) :
  exists st1 acts,
    (r <- analyze_document f mode language ;;
     let '(extracted_text, summary_text) := r in
     let content := content_to_save mode extracted_text summary_text in
     if truthy_opt content then
       success <-
         (if Str.eqb format (lit "docx") then
            let title := document_title mode base_filename in
            save_to_word_file content output_path title language
          else save_to_text_file content output_path) ;;
       if success : bool then print (MsgSavedTo output_path) else print MsgSaveFailed
     else print MsgNoContent)%monad w st
    = (Val tt, st1)
    /\ actions (trace st1) = acts ++ actions (trace st)
    /\ count is_upload acts = O
    /\ count is_generate acts = 1%nat
    /\ (count is_delete acts <= 1)%nat
    /\ (count is_write acts <= 1)%nat.
Proof.
  unfold bind at 1.
  destruct (analyze_document_run w st f mode language) as (st1 & E & A).
  rewrite E. destruct (analysis_value mode _) as [extracted summary].
  cbv zeta.
  set (called := (if truthy (name f) then [EvDeleteFile (name f)] else [])
                 ++ [EvGenerate (build_prompt f mode language) (name f) 600]).
  assert (actions (trace st1) = called ++ actions (trace st)) as A'.
  { rewrite A. subst called. now rewrite <- app_assoc. }
  assert (count is_upload called = O /\ count is_generate called = 1%nat
          /\ (count is_delete called <= 1)%nat /\ count is_write called = O) as C.
  { subst called. destruct (truthy (name f)); count_events; repeat split; lia. }
  destruct C as (C1 & C2 & C3 & C4). clear A.
  destruct (content_to_save mode extracted summary) as [c|]; cbn [truthy_opt].
  2:{ cbv [print]. eexists. exists called. split; [reflexivity|]. cbn [trace].
      unfold actions in *. cbn [filter is_action].
      repeat split; try assumption; lia. }
  destruct (truthy c).
  2:{ cbv [print]. eexists. exists called. split; [reflexivity|]. cbn [trace].
      unfold actions in *. cbn [filter is_action].
      repeat split; try assumption; lia. }
  unfold bind.
  destruct (Str.eqb format (lit "docx")); cbv zeta.
  - destruct (save_to_word_file_run w st1 c output_path
                (document_title mode base_filename) language) as (st2 & E2 & A2).
    rewrite E2.
    set (the_write := docx_write output_path c
                        (document_title mode base_filename) language) in *.
    assert (forall ev, the_write = Some ev ->
                       is_write ev = true /\ is_upload ev = false
                       /\ is_generate ev = false /\ is_delete ev = false) as W.
    { subst the_write. unfold docx_write.
      destruct (word_document c _ language); intros ev H; inversion H;
        repeat split. }
    destruct (writer_actions_counts w st1 output_path the_write W)
      as (W1 & W2 & W3 & W4).
    exists {| now := now st2;
              trace := EvPrint (if snd (writer_actions w st1 output_path the_write)
                                then MsgSavedTo output_path else MsgSaveFailed)
                       :: trace st2 |}.
    exists (fst (writer_actions w st1 output_path the_write) ++ called).
    split; [destruct (snd (writer_actions _ _ _ _)); reflexivity|].
    cbn [trace]. unfold actions in *. cbn [filter is_action].
    rewrite A2, A', app_assoc. split; [reflexivity|].
    rewrite !count_app. repeat split; lia.
  - destruct (save_to_text_file_run w st1 c output_path) as (st2 & E2 & A2).
    rewrite E2.
    set (the_write := Some (EvWriteText output_path c)) in *.
    assert (forall ev, the_write = Some ev ->
                       is_write ev = true /\ is_upload ev = false
                       /\ is_generate ev = false /\ is_delete ev = false) as W.
    { subst the_write. intros ev H; inversion H; repeat split. }
    destruct (writer_actions_counts w st1 output_path the_write W)
      as (W1 & W2 & W3 & W4).
    exists {| now := now st2;
              trace := EvPrint (if snd (writer_actions w st1 output_path the_write)
                                then MsgSavedTo output_path else MsgSaveFailed)
                       :: trace st2 |}.
    exists (fst (writer_actions w st1 output_path the_write) ++ called).
    split; [destruct (snd (writer_actions _ _ _ _)); reflexivity|].
    cbn [trace]. unfold actions in *. cbn [filter is_action].
    rewrite A2, A', app_assoc. split; [reflexivity|].
    rewrite !count_app. repeat split; lia.
Qed.

Lemma script_run :
  (enough_fuel <= fuel)%nat ->
  exists st2,
    run_M (main fuel input_file output_path base_filename format mode language) w
    = (Val tt, st2)
    /\ (count is_upload (trace st2) <= 3)%nat
    /\ (count is_generate (trace st2) <= 1)%nat
    /\ (count is_delete (trace st2) <= 1)%nat
    /\ (count is_write (trace st2) <= count is_generate (trace st2))%nat.
Proof.
  intros Hf.
  destruct (upload_run_profile w input_file fuel Hf)
    as (v & st1 & E & U & Out & P & B & D & R).
  unfold run_M in *. unfold main. unfold bind at 1. rewrite E.
  assert (count is_generate (trace st1) = O /\ count is_write (trace st1) = O)
    as [G W].
  { clear - Out. induction (trace st1) as [|e tr IH]; [split; reflexivity|].
    rewrite count_cons in Out. rewrite !count_cons.
    unfold is_output in Out at 1.
    destruct (is_generate e), (is_write e); cbn [orb] in Out; lia. }
  destruct v as [f|].
  - destruct R as [_ R2].
    destruct (after_upload_run f st1) as (st2 & acts & E2 & A2 & C1 & C2 & C3 & C4).
    cbv beta iota zeta in E2. cbv beta iota zeta. unfold bind at 1. rewrite E2.
    cbv [print]. eexists. split; [reflexivity|]. cbn [trace]. rewrite !count_cons.
    rewrite (count_trace_actions is_upload (trace st2)) by reflexivity.
    rewrite (count_trace_actions is_generate (trace st2)) by reflexivity.
    rewrite (count_trace_actions is_delete (trace st2)) by reflexivity.
    rewrite (count_trace_actions is_write (trace st2)) by reflexivity.
    rewrite A2, !count_app, !count_actions by reflexivity.
    cbn [is_upload is_generate is_delete is_write]. repeat split; lia.
  - cbv [bind print]. eexists. split; [reflexivity|]. cbn [trace].
    rewrite !count_cons.
    cbn [is_upload is_generate is_delete is_write]. repeat split; lia.
Qed.

(** X7: The script never raises, and a run makes at most 3 upload calls, at
    most one generation call, at most one delete call and at most one
    write, and it writes nothing unless it made the generation call. *)
Theorem script_run_bounds :
  (enough_fuel <= fuel)%nat ->
  let r := run_M (main fuel input_file output_path base_filename format mode language) w in
  fst r = Val tt
  /\ (count is_upload (final_trace r) <= 3)%nat
  /\ (count is_generate (final_trace r) <= 1)%nat
  /\ (count is_delete (final_trace r) <= 1)%nat
  /\ (count is_write (final_trace r) <= count is_generate (final_trace r))%nat.
Proof.
  intros Hf. cbv zeta.
  destruct (script_run Hf) as (st2 & E & H).
  rewrite E. unfold final_trace. cbn [fst snd]. split; [reflexivity|exact H].
Qed.

End Script.

Lemma script_run_bounds_witness :
  let r := run_M (main 22 (lit "scan.pdf") (lit "out/scan_full_english.txt")
                       (lit "scan") (lit "text") (lit "full") (lit "english"))
                 flaky_world in
  fst r = Val tt
  /\ (count is_upload (final_trace r) <= 3)%nat
  /\ (count is_generate (final_trace r) <= 1)%nat
  /\ (count is_delete (final_trace r) <= 1)%nat
  /\ (count is_write (final_trace r) <= count is_generate (final_trace r))%nat.
Proof.
  apply (script_run_bounds flaky_world 22).
  unfold enough_fuel. lia.
Defined.

(** ** The window *)

(** X8: With an output path that is not empty, the body of the worker of the
    window does what the script does, up to the last message of the
    script. *)
Theorem window_analysis_is_script :
  forall (fuel : nat)
         (input_path output_path base_filename format mode language : str),
    truthy output_path = true ->
    forall (w : world) (st : state),
      (window_analysis fuel input_path output_path base_filename format mode language ;;
       print MsgFinished)%monad w st
      = main fuel input_path output_path base_filename format mode language w st.
Proof.
  intros fuel input_path output_path base_filename format mode language H w st.
  unfold main, window_analysis. rewrite H. cbv [bind].
  destruct (upload_file_to_gemini fuel input_path w st) as [[[f|]| |] st1];
    try reflexivity.
  destruct (analyze_document f mode language w st1) as [[[e s]| |] st2];
    try reflexivity.
  rewrite andb_true_r. reflexivity.
Qed.

Lemma window_analysis_is_script_witness :
  (window_analysis 22 (lit "in/scan.pdf") (lit "in/scan_full_english.txt")
     (lit "scan") (lit "text") (lit "full") (lit "english") ;;
   print MsgFinished)%monad flaky_world initial_state
  = main 22 (lit "in/scan.pdf") (lit "in/scan_full_english.txt")
      (lit "scan") (lit "text") (lit "full") (lit "english")
      flaky_world initial_state.
Proof.
  apply (window_analysis_is_script 22 (lit "in/scan.pdf")
           (lit "in/scan_full_english.txt") (lit "scan") (lit "text")
           (lit "full") (lit "english")).
  reflexivity.
Defined.

(** ** The analysis: the calls it makes *)

(** X9: In every world the analysis returns, having made exactly one
    generation call, with the prompt of the mode, the file and a timeout of
    600 seconds, and after it exactly one delete call for the file; for a
    file object with an empty name it makes no delete call. *)
Theorem analysis_calls :
  forall (f : File) (mode language : str) (w : world) (st : state),
    exists r st1,
      analyze_document f mode language w st = (Val r, st1)
      /\ rev (actions (trace st1))
         = rev (actions (trace st))
           ++ EvGenerate (build_prompt f mode language) (name f) 600
           :: (if truthy (name f) then [EvDeleteFile (name f)] else []).
Proof.
  intros f mode language w st.
  destruct (analyze_document_run w st f mode language) as (st1 & E & A).
  do 2 eexists. split; [exact E|]. rewrite A.
  destruct (truthy (name f)); cbn [app rev]; rewrite <- ?app_assoc; reflexivity.
Qed.

(** ** Default output paths *)

Lemma drop_while_absent (c : codepoint) (a : str) :
  absent c a = true -> drop_while (fun x => negb (N.eqb x c)) a = [].
Proof.
  induction a as [|x a IH]; [reflexivity|]. simpl. intros H.
  apply andb_true_iff in H. destruct H as [Hx Ha]. rewrite Hx. now apply IH.
Qed.

Lemma forallb_reverse {A : Type} (p : A -> bool) (l : list A) :
  forallb p (rev l) = forallb p l.
Proof.
  induction l as [|x l IH]; [reflexivity|]. cbn [rev].
  rewrite forallb_app, IH. cbn [forallb]. rewrite andb_true_r. apply andb_comm.
Qed.

Lemma absent_rev (c : codepoint) (a : str) : absent c (rev a) = absent c a.
Proof. apply forallb_reverse. Qed.

(** X13: For an input file name without a directory part, the default output
    path of the window is the default name of the script with a slash in
    front: a path in the root directory. *)
Theorem window_default_for_bare_name :
  forall (base_of : str -> str) (input_filename mode language output_format : str),
    absent slash input_filename = true ->
    update_default_output_path base_of input_filename mode language output_format
    = lit "/" ++ script_output_path base_of input_filename None output_format
                   mode language.
Proof.
  intros base_of input_filename mode language output_format H.
  unfold update_default_output_path, script_output_path, dirname. cbv zeta.
  rewrite drop_while_absent by (now rewrite absent_rev). reflexivity.
Qed.

Lemma window_default_for_bare_name_witness :
  update_default_output_path (fun _ => lit "scan") (lit "scan.pdf")
    (lit "full") (lit "english") (lit "text")
  = lit "/" ++ script_output_path (fun _ => lit "scan") (lit "scan.pdf") None
                 (lit "text") (lit "full") (lit "english").
Proof.
  apply (window_default_for_bare_name (fun _ => lit "scan") (lit "scan.pdf")
           (lit "full") (lit "english") (lit "text")).
  reflexivity.
Defined.

(** ** More on the parser *)

Section ParserFacts.

Import Spec.

Lemma hyphen_matches (c : codepoint) :
  literal_matches parse_flags 45%N c = N.eqb c 45%N.
Proof. reflexivity. Qed.

(** A marker that starts with a hyphen is only found in a response that has
    a hyphen, so not in a blank one. *)
Lemma marker_found_nonblank (m raw : str) (i : nat) :
  find_marker (45%N :: m) raw = Some i -> has_non_whitespace raw = true.
Proof.
  revert i. induction raw as [|c raw IH]; intros i H.
  - simpl in H. discriminate H.
  - cbn [find_marker] in H. unfold marker_at in H. cbn [match_literal] in H.
    rewrite hyphen_matches in H. unfold has_non_whitespace. cbn [existsb].
    destruct (N.eqb c 45) eqn:Ec.
    + apply N.eqb_eq in Ec. subst c. reflexivity.
    + destruct (find_marker (45%N :: m) raw) as [j|] eqn:F; [|discriminate H].
      fold (has_non_whitespace raw). rewrite (IH j eq_refl). apply orb_true_r.
Qed.

Lemma section_found_nonblank (m close raw g : str) :
  first_between (45%N :: m) close raw = Some g -> has_non_whitespace raw = true.
Proof.
  unfold first_between.
  destruct (find_marker (45%N :: m) raw) as [i|] eqn:F; [|discriminate].
  intros _. exact (marker_found_nonblank m raw i F).
Qed.

(** X10: The parser returns neither a full text nor a summary exactly for the
    responses that consist of whitespace only. *)
Theorem parser_returns_nothing_for_blank_only :
  forall (raw mode : str) (w : world) (st : state),
    match returned (parse_sections raw mode w st) with
    | Some (None, None) => has_non_whitespace raw = false
    | Some _ => has_non_whitespace raw = true
    | None => False
    end.
Proof.
  intros raw mode w st. rewrite parse_sections_refines.
  unfold parse, summary_section.
  destruct (first_between TEXT_START_MARKER TEXT_END_MARKER raw) as [g|] eqn:T.
  - apply section_found_nonblank in T. cbn [option_map]. exact T.
  - cbn [option_map]. destruct (Str.eqb mode (lit "summary")).
    + destruct (first_between SUMMARY_START_MARKER SUMMARY_END_MARKER raw)
        as [s|] eqn:S.
      * apply section_found_nonblank in S. exact S.
      * cbn [option_map]. destruct (has_non_whitespace raw); reflexivity.
    + cbn [option_map]. destruct (has_non_whitespace raw); reflexivity.
Qed.

End ParserFacts.

Section ParserRoundTrip.

Import Spec.

Lemma skipn_past (a b : str) (k : nat) :
  skipn (List.length a + k) (a ++ b) = skipn k b.
Proof. induction a as [|x a IH]; [reflexivity|exact IH]. Qed.

Lemma firstn_prefix (a b : str) : firstn (List.length a) (a ++ b) = a.
Proof. induction a as [|x a IH]; [reflexivity|]. simpl. now rewrite IH. Qed.

Lemma match_literal_self (fl : flags) (m t : str) :
  forallb (fun p => literal_matches fl p p) m = true ->
  match_literal fl m (m ++ t) = Some t.
Proof.
  induction m as [|p m IH]; [reflexivity|]. intros H. simpl in H.
  apply andb_true_iff in H. destruct H as [Hp Hm].
  cbn [app match_literal]. rewrite Hp. now apply IH.
Qed.

Lemma marker_within_false (m t : str) (n : nat) :
  marker_within m t n = false ->
  forall j, (j < n)%nat -> marker_at m (skipn j t) = false.
Proof.
  unfold marker_within. intros H j Hj.
  destruct (marker_at m (skipn j t)) eqn:E; [|reflexivity].
  assert (existsb (fun j => marker_at m (skipn j t)) (seq 0 n) = true) as X.
  { apply existsb_exists. exists j. split; [apply in_seq; lia|exact E]. }
  rewrite X in H. discriminate H.
Qed.

(** A position of the marker before which it does not stand is the one the
    search finds. *)
Lemma find_marker_at (m : str) (i : nat) :
  forall t,
    marker_at m (skipn i t) = true ->
    (forall j, (j < i)%nat -> marker_at m (skipn j t) = false) ->
    find_marker m t = Some i.
Proof.
  induction i as [|i IH]; intros t H N.
  - destruct t; cbn [skipn] in H; cbn [find_marker]; now rewrite H.
  - pose proof (N 0%nat ltac:(lia)) as N0. cbn [skipn] in N0.
    destruct t as [|c t].
    + cbn [skipn] in H. rewrite H in N0. discriminate N0.
    + cbn [find_marker]. rewrite N0. cbn [skipn] in H.
      rewrite (IH t H); [reflexivity|].
      intros j Hj. exact (N (S j) ltac:(lia)).
Qed.

(** X11: A response that has the text between the text markers, with no start
    marker before and no end marker inside the text, gives the text back,
    trimmed, as the full text, in every mode and whatever comes before and
    after the section. *)
Theorem marked_text_is_recovered :
  forall (before body after mode : str) (w : world) (st : state),
    marker_within TEXT_START_MARKER (marked_response before body after)
                  (List.length before) = false ->
    marker_within TEXT_END_MARKER (body ++ TEXT_END_MARKER ++ after)
                  (List.length body) = false ->
    option_map fst
      (returned (parse_sections (marked_response before body after) mode w st))
    = Some (Some (strip body)).
Proof.
  intros before body after mode w st Hs He.
  rewrite parse_sections_refines.
  assert (first_between TEXT_START_MARKER TEXT_END_MARKER
            (marked_response before body after) = Some body) as F.
  { unfold first_between, marked_response.
    rewrite (find_marker_at TEXT_START_MARKER (List.length before)).
    - rewrite skipn_past.
      rewrite <- (Nat.add_0_r (List.length TEXT_START_MARKER)), skipn_past.
      cbn [skipn].
      rewrite (find_marker_at TEXT_END_MARKER (List.length body)).
      + now rewrite firstn_prefix.
      + rewrite <- (Nat.add_0_r (List.length body)), skipn_past. cbn [skipn].
        unfold marker_at.
        rewrite match_literal_self by (vm_compute; reflexivity). reflexivity.
      + now apply marker_within_false.
    - rewrite <- (Nat.add_0_r (List.length before)), skipn_past. cbn [skipn].
      unfold marker_at.
      rewrite match_literal_self by (vm_compute; reflexivity). reflexivity.
    - now apply marker_within_false. }
  unfold parse. rewrite F. cbn [option_map].
  destruct (option_map strip (summary_section _ mode)); reflexivity.
Qed.

End ParserRoundTrip.

Lemma marked_text_is_recovered_witness :
  option_map fst
    (returned (parse_sections
                 (marked_response (lit "Here is the text.") (lit "
 HELLO - world
") (lit "
Done."))
                 (lit "summary") flaky_world initial_state))
  = Some (Some (strip (lit "
 HELLO - world
"))).
Proof.
  apply (marked_text_is_recovered (lit "Here is the text.") (lit "
 HELLO - world
") (lit "
Done.") (lit "summary") flaky_world initial_state).
  - vm_compute. reflexivity.
  - vm_compute. reflexivity.
Defined.

(** ** The prompt and the parser agree on the format *)

Section PromptFormat.

Import Spec.

Lemma absent_app (c : codepoint) (a b : str) :
  absent c (a ++ b) = absent c a && absent c b.
Proof. apply forallb_app. Qed.

Lemma find_marker_after_prefix (m a b : str) :
  absent 45%N a = true ->
  find_marker (@cons codepoint 45%N m) (a ++ b)
  = option_map (Nat.add (List.length a)) (find_marker (@cons codepoint 45%N m) b).
Proof.
  induction a as [|x a IH]; intros H.
  - cbn [app List.length]. destruct (find_marker _ b); reflexivity.
  - simpl in H. apply andb_true_iff in H. destruct H as [Hx Ha].
    cbn [app find_marker]. unfold marker_at at 1. cbn [match_literal].
    rewrite hyphen_matches. apply negb_true_iff in Hx. rewrite Hx.
    rewrite (IH Ha). destruct (find_marker _ b); reflexivity.
Qed.

(** Text without a hyphen in front of a response does not change the
    section that the search finds. *)
Lemma first_between_after_prefix (open close a b : str) :
  hd_error open = Some 45%N -> absent 45%N a = true ->
  first_between open close (a ++ b) = first_between open close b.
Proof.
  intros Ho Ha. destruct open as [|p m]; [discriminate|].
  cbn [hd_error] in Ho. inversion Ho; subst p.
  unfold first_between. rewrite (find_marker_after_prefix m a b Ha).
  destruct (find_marker _ b) as [i|]; [|reflexivity].
  cbn [option_map]. now rewrite <- Nat.add_assoc, skipn_past.
Qed.

(** X12: The prompt shows the model the format that the parser reads: parsing
    the prompt itself, for a valid mode and language and a display name
    without a hyphen, gives the placeholder of the text section as full
    text and, in summary mode, the placeholder of the summary section as
    summary. *)
Theorem prompt_format_is_parsed :
  forall (f : File) (mode language : str) (w : world) (st : state),
    valid_mode mode -> valid_language language ->
    absent 45%N (display_name f) = true ->
    returned (parse_sections (build_prompt f mode language) mode w st)
    = Some (Some (lit "[Full extracted text here]"),
            if Str.eqb mode (lit "summary")
            then Some (lit "[Your detailed summary here]")
            else None).
Proof.
  intros f mode language w st Hm Hl Hd.
  rewrite parse_sections_refines, prompt_split, app_assoc.
  assert (absent 45%N (prompt_head ++ display_name f) = true) as Ha.
  { rewrite absent_app, Hd. reflexivity. }
  unfold parse, summary_section.
  rewrite !first_between_after_prefix by (reflexivity || exact Ha).
  destruct Hm as [-> | ->]; destruct Hl as [-> | ->]; vm_compute; reflexivity.
Qed.

End PromptFormat.

Lemma prompt_format_is_parsed_witness :
  returned (parse_sections (build_prompt ordinary_file (lit "summary") (lit "arabic"))
                           (lit "summary") flaky_world initial_state)
  = Some (Some (lit "[Full extracted text here]"),
          if Str.eqb (lit "summary") (lit "summary")
          then Some (lit "[Your detailed summary here]")
          else None).
Proof.
  apply (prompt_format_is_parsed ordinary_file (lit "summary") (lit "arabic")
           flaky_world initial_state).
  - right; reflexivity.
  - left; reflexivity.
  - reflexivity.
Defined.
